(* ===== verification/_CoqProject ===== *)
-Q . S2P
Prelude.v
Config.v
JsValue.v
Ledger.v
Builder.v
Search.v
Tracker.v
Orchestrator.v
EndToEnd.v
Pages.v
Session.v
