(* ===== verification/Prelude.v ===== *)
(** * Verification of the escrow protocol of symbol-books/blockchain-writing-project-escrow

    ** The program
    A Next.js front end lets a requester swap XYM for a quantity of a
    mosaic held by a counterparty, through a Symbol "aggregate bonded"
    transaction that both sign.  The protocol lives in [src/src/utils]:
    - [requestEscrowWithSSS.ts] builds three inner transfers (payment of
      the price to the counterparty with the expiration instant as
      message, the mosaic back to the requester with the user's message,
      the service fee to the admin with the service marker), asks the SSS
      signer for the bundle and, 1000 ms later, for the hash lock,
      announces the lock, races a [confirmed] notification against a
      1000 ms status poll, waits 5000 ms, announces the bundle and races
      an [aggregateBondedAdded] notification against the same poll;
    - [escrowRequestWithSSS.ts] is an older copy of that flow, still
      called by [pages/escrow-request], with empty messages, a literal
      currency and no 5000 ms wait;
    - [cosignedEscrowWithSSS.ts] fetches a partial bundle by hash, asks
      for a cosignature, announces it and races the parent's
      confirmation against the poll;
    - [searchEscrow.ts] lists the bonded aggregates of an address and
      rebuilds an [escrowAggregateTransaction] from each whose third
      transfer carries the marker, skipping any item that throws.
    The pages call these flows and render their outcome; the cards and the
    confirmation dialog render records and inputs.  The node, the SDK and
    the SSS extension are external.

    ** Files, in dependency order
    - [Prelude.v]: the scope [escrow_scope]; [js_result] (a value, a thrown
      error, or a promise that never settles) with [js_bind], [js_catch],
      [js_get]; the tactic [js_destruct]; hint databases [escrow] and
      [escrow_rw]; lemmas on [omap] (order, skipping) shared by the
      reconstructor.
    - [Config.v]: the constants of [@/consts/blockchainProperty] (not in
      the sources) as a record [Config]; every component is stated for an
      arbitrary configuration.
    - [JsValue.v]: [Number()] ([js_Number]), [toString] ([js_toString]) on
      integers, [UInt64.fromUint] ([uint64_fromUint]) and a string's
      [length] in UTF-16 code units ([js_length]).
    - [Ledger.v]: the SDK objects the code builds and reads
      ([TransferTransaction], [AggregateTransaction], [TransactionStatus],
      ...) and the node as a record of stdpp maps answering the queries
      ([getAccountInfo], [searchPage], [getTransaction], ...).
    - [Builder.v]: [build_inner], [build_hashLock] (lines 55-133 of
      [requestEscrowWithSSS.ts]) and their older versions.
    - [Search.v]: [searchEscrow], its loop [search_loop] and per-item body
      [search_item_body]; a reference decoder [decode_escrow] /
      [escrow_of] written by pattern matching; concrete node [demo_node].
    - [Tracker.v]: the event/poll race as the executable step function
      [tstep] over [TState] (listener, timer, pending requests, the
      promise's value [winner], trace of effects); [tracker_step] and
      [tracker_reachable] (stdpp [rtc]); [run_schedule] runs a schedule;
      the well-formedness predicate [tracker_wf] (decidable) and the
      measure [tracker_measure] of what can still happen.
    - [Orchestrator.v]: the three flows in the writer/error monad [Flow]
      (effects appended to a trace: signature requests, waits,
      announcements, subscriptions); the interfaces [SignerGateway],
      [Announcer], [ConfirmationTracker] as typeclasses; [race_tracker]
      instantiates the tracker with the race of [Tracker.v].
    - [EndToEnd.v]: the node after the announcements of a trace
      ([ledger_after]: an announced bonded aggregate enters the partial
      group and becomes the newest search entry of every address it
      involves), linking the orchestrator to the reconstructor.
    - [Pages.v]: form validation (the [validationRules] of both request
      pages as data, evaluated as react-hook-form does), the submission
      and result handlers, the detail page's selection by hash, the
      history page's loading, the dialog's shown values and buttons, the
      escrow page's agree button composed with [requestEscrowWithSSS],
      the older page's composed with [escrowRequestWithSSS], and the
      cards' views, as functions of the React state.
    - [Session.v]: the [useSssInit] effect every page repeats
      ([sss_effect], a [Session] of client address and route), the
      drawer's navigation, the home page as an event machine
      ([home_step], run by the generic [run_events] of this file) and its
      view, the mounting and views of the history and detail pages
      composed with [searchEscrow], and the detail page's cosignature
      click composed with [cosignedEscrowWithSSS].

    ** What is proved
    - Builder: the exact three transfers in order, with the amounts and
      messages (C1); errors on negative amounts and non-hex mosaic ids.
    - Reconstructor: round trip from a built request to the record it
      yields (C2, through [Number(z.toString()) = z] of [JsValue.v]); only
      marked bundles give records (C3); a well-formed marked bundle
      always does (C4); order of the ledger kept (C14); a throwing item is
      skipped (C15); [undefined] exactly for an unreachable node, a throw
      for an unknown address (C16); requests of the older flow are never
      listed (C17); one iteration of the loop equals the reference
      decoder (C32, equivalence); at most 100 records (C33).
    - Tracker: refinement of the specification's race (C5: the
      notification comes first, the event settles only after it, the
      poll never settles on [Success], the first settlement is kept); the poll
      never resolves Success (C6); a missed notification hangs the
      race once the poll has read [Success] (C9); at most two, and possibly two,
      [listener.close()] (C11); the poll still fetches after the event
      won (C12); a failure status read by the poll resolves it (C13);
      every reachable state is well formed (C28); no infinite run (C29,
      the step relation is well founded by [tracker_measure]); at most
      four events (C30); with the notification and no failed request,
      every run ends settled (C31); two failed status requests leave it
      pending with the listener open (C37).
    - End to end: once [requestEscrowWithSSS] announced its bundle, the
      pending searches of both parties return the escrow first, with the
      requested terms and the announced hash (C27, the flow, the node and
      the reconstructor composed).
    - Orchestrator: effects always a prefix of the protocol's order (C7);
      the lock's status is ignored and the bundle announced anyway (C8);
      a missed bundle-added event hangs [requestEscrowWithSSS] (C10, the
      race composed with the flow); no settling wait in the older flow
      (C18); undefined and signer-rejection outcomes (C19); the
      cosignature flow announces before subscribing and watches the
      parent hash (C20); the hash lock signed is built on the hash of the
      bundle signed before it, and every bonded announcement carries that
      hash (C21).
    - Pages: non-positive amount or price never reaches the builder
      (C22); the form accepts non-hex mosaic ids that make the builder
      throw (C23); thrown flows show nothing, hanging ones spin forever
      (C24); the detail page's selection (C25); the dialog shows a fee and
      total computed from the amount instead of the price (C26); both
      request pages validate alike but for one
      message's wording (C34); from the form to the signer, the bundle
      SSS is asked to sign is built from the validated inputs (C38); a
      bundle signed from [pages/escrow-request] is never listed by any
      search (C40, the page, the older flow and the reconstructor
      composed).
    - Sessions: the history page shows the same empty list for an
      unreachable node, an unknown client and no escrow (C35); cosigning
      a bundle no longer pending asks no signature and shows nothing
      (C36); on the home page the send-message dialog never opens, so its
      handler is dead code (C39, an invariant of the reachable states).

    ** Bounds and choices
    Numbers are integers ([Z]): amounts, prices in XYM, heights and
    timestamps below 2^53, where JavaScript's doubles are exact; the fee
    [price * 0.1 * 1000000] is [price * servieFee_ppm], equal for integer
    prices.  [UInt64.fromUint] keeps the value modulo 2^64 and throws on
    negatives; the theorems assume amounts in [0, 2^64) where they need
    exact values ([uint64_range]).  The search reads one page of 100.  No
    fuel is needed: every flow is a finite sequence of awaited calls, and
    the race is a step relation whose runs are finite schedules; a promise
    that never settles is the value [Hangs].  The listener is assumed to
    emit at most once per hash.  The termination measure counts two for
    each trigger still possible (notification, timer) and one per
    pending request: every step removes a trigger and adds at most one
    request, or removes a request, so a race has at most four steps.

    ** Not modelled
    Rendering and styling beyond the values shown; the hook [useSssInit]
    itself and [PublicAccount.createFromPublicKey] (their outcome is the
    state string and the [addressOf] function of [Session.v]);
    [sendMessageWithSSS], [Header], [AlertsSnackbar], [AlertsDialog] and
    the escrow page's dialog [AlertsDialogRequestEscrow] (not under
    [src/]: their outcomes and callbacks are inputs and events of the
    pages' models); [connectNode] and the
    node list (their outcome is the [option Node] argument); the SDK's
    serialisation, fees and deadlines; the node's handling of hash locks
    and cosignatures (only the announcement of bonded aggregates is
    applied, in [EndToEnd.v]); the interplay of the lock's race with the
    bundle's on the shared [listener].  A callback of the lock's race
    still pending when the bundle's race opens the listener can close it
    only after reading a status other than ['Success'] for the lock; on a
    node that answers one status per hash this happens only when the
    lock failed, and then the bundle it guards fails too and the bundle's
    poll ends its race.  Modelling this needs the two races over one
    listener and a node whose statuses follow its announcements, which
    the development does not have.
    The form's amount and price are taken as the integers typed: text
    that is not a decimal integer (fractions, exponents) is not
    modelled. *)

From stdpp Require Export base strings gmap list.
From Stdlib Require Export ZArith.

Declare Scope escrow_scope.
Delimit Scope escrow_scope with escrow.
Open Scope escrow_scope.

(** ** Outcomes of an [async] JS function

    An awaited call either returns a value, throws (a rejected promise:
    every [firstValueFrom] on a failed HTTP request, every
    [TypeError] on a missing field), or never settles (a [new Promise]
    whose [resolve] is never called). *)
Inductive js_error :=
  | ErrRequest (what : string)     (* an HTTP request of the SDK failed *)
  | ErrSigner                      (* SSS rejected or cancelled *)
  | ErrTypeError (what : string)   (* a field of [undefined] was read *)
  | ErrUInt64 (what : string).     (* [UInt64.fromUint] of a negative *)

Inductive js_result (A : Type) :=
  | Returned (a : A)
  | Thrown (e : js_error)
  | Hangs.
Arguments Returned {A} a.
Arguments Thrown {A} e.
Arguments Hangs {A}.

Definition js_bind {A B} (r : js_result A) (k : A -> js_result B) : js_result B :=
  match r with
  | Returned a => k a
  | Thrown e => Thrown e
  | Hangs => Hangs
  end.

(** [try { r } catch (e) { h(e) }] *)
Definition js_catch {A} (r : js_result A) (h : js_error -> js_result A) : js_result A :=
  match r with
  | Thrown e => h e
  | _ => r
  end.

Notation "x <-? r ;; k" := (js_bind r (fun x => k))
  (at level 100, r at next level, right associativity) : escrow_scope.

(** [a === b] on strings: JavaScript's strict equality. *)
Notation "a === b" := (String.eqb a b) (at level 70, no associativity) : escrow_scope.

(** An option read as a JS value that may be [undefined]: reading a
    field of it throws a [TypeError]. *)
Definition js_get {A} (what : string) (o : option A) : js_result A :=
  match o with Some a => Returned a | None => Thrown (ErrTypeError what) end.

Create HintDb escrow.
Create Rewrite HintDb escrow_rw.

Ltac invc H := inversion H; subst; clear H.

(** Case analysis on every awaited call and every test of a hypothesis
    [H : <js computation> = ...]. *)
Ltac js_destruct H :=
  repeat match type of H with
  | context [js_bind ?r _] =>
      let E := fresh "E" in destruct r eqn:E; simpl in H; try discriminate H
  | context [if ?b then _ else _] =>
      let E := fresh "E" in destruct b eqn:E; simpl in H; try discriminate H
  end.

(** ** Shared lemmas *)

Lemma js_bind_Returned {A B} (r : js_result A) (k : A -> js_result B) b :
  js_bind r k = Returned b <-> exists a, r = Returned a /\ k a = Returned b.
Proof.
  split.
  - destruct r; simpl; [eauto | discriminate | discriminate].
  - intros (a & -> & Hk). exact Hk.
Qed.

Lemma js_get_Returned {A} what (o : option A) a :
  js_get what o = Returned a <-> o = Some a.
Proof. destruct o; simpl; split; congruence. Qed.

Lemma eqb_refl_true (s : string) : (s === s) = true.
Proof. apply String.eqb_refl. Qed.

Lemma eqb_true_iff (s t : string) : (s === t) = true <-> s = t.
Proof. apply String.eqb_eq. Qed.

#[export] Hint Rewrite eqb_refl_true : escrow_rw.

(** Filtering with a partial map keeps the surviving elements in order:
    the output is the image of a sublist of the input. *)
Lemma omap_sublist_Forall2 {A B} (f : A -> option B) (l : list A) :
  exists l', l' `sublist_of` l /\ Forall2 (fun x y => f x = Some y) l' (omap f l).
Proof.
  induction l as [|x l (l' & Hsub & Hf)]; simpl.
  - exists []. split; constructor.
  - destruct (f x) eqn:E.
    + exists (x :: l'). split; [by constructor|]. by constructor.
    + exists l'. split; [by constructor|]. done.
Qed.

(** A partial map never lengthens a list. *)
Lemma omap_length_le {A B} (f : A -> option B) (l : list A) : length (omap f l) <= length l.
Proof.
  destruct (omap_sublist_Forall2 f l) as (l' & Hsub & Hf).
  rewrite <- (Forall2_length _ _ _ Hf). by apply sublist_length.
Qed.

(** An element the partial map rejects can be removed without changing
    the result. *)
Lemma omap_skip {A B} (f : A -> option B) l1 x l2 :
  f x = None -> omap f (l1 ++ x :: l2) = omap f (l1 ++ l2).
Proof. intros Hx. rewrite !omap_app. simpl. by rewrite Hx. Qed.

(** A predicate preserved by every step holds along a sequence of steps. *)
Lemma rtc_invariant {A} (R : relation A) (P : A -> Prop) :
  (forall x y, R x y -> P x -> P y) -> forall x y, rtc R x y -> P x -> P y.
Proof. intros Hstep x y Hr. induction Hr as [|x1 x2 x3 H12 _ IH]; eauto. Qed.

(** ** Event machines

    A component driven by events: [step s e] is the state after event [e],
    or [None] when [e] cannot happen in [s]. *)
Section Events.
Context {S E : Type} (step : S -> E -> option S).

Definition step_rel (s s' : S) : Prop := exists e, step s e = Some s'.

Fixpoint run_events (s : S) (es : list E) : option S :=
  match es with
  | [] => Some s
  | e :: es' => s' ← step s e; run_events s' es'
  end.

Lemma run_events_rtc s es s' : run_events s es = Some s' -> rtc step_rel s s'.
Proof.
  revert s. induction es as [|e es IH]; simpl; intros s H.
  - simplify_eq. constructor.
  - destruct (step s e) as [s1|] eqn:Es; simpl in H; [|discriminate].
    eapply rtc_l; [exists e; exact Es | by apply IH].
Qed.
End Events.
