(* ===== verification/Config.v ===== *)
(** Configuration of the protocol: the constants the utilities import
    from [@/consts/blockchainProperty] and [@/consts/nodeList].  That
    module is not part of the sources given here, so its values are
    taken from the specification and from the literals of the older
    [escrowRequestWithSSS.ts]; the development keeps them as fields of
    a record, and every component is stated for an arbitrary
    configuration, [default_config] serving only the concrete runs. *)
From S2P Require Import Prelude.

Record Config := {
  epochAdjustment : Z;          (* seconds between 1970 and the nemesis block *)
  currencyMosaicID : string;    (* XYM *)
  hashLockTxDuration : Z;       (* lock validity, in blocks of 30 s *)
  servieFee_ppm : Z;            (* servieFee (0.1) times 1000000 *)
  servieName : string           (* the service marker of the third transfer *)
}.

(** The literal values: testnet XYM and 0.1 as in [escrowRequestWithSSS.ts]
    (lines 66, 93) and 480 blocks (line 121 there); the testnet
    epoch adjustment and the marker string are placeholders. *)
Definition default_config : Config := {|
  epochAdjustment := 1667250467;
  currencyMosaicID := "72C0212E67A08BCE";
  hashLockTxDuration := 480;
  servieFee_ppm := 100000;
  servieName := "escrow-service"
|}.

(** The status code the ledger reports for an accepted transaction. *)
Definition code_Success : string := "Success".
