(* ===== verification/JsValue.v ===== *)
(** JavaScript number conversions and the SDK's [UInt64] as the escrow
    code uses them: [expirationTime.toString()] when a request is built
    ([requestEscrowWithSSS.ts] line 81), [Number(payload)] when it is
    read back ([searchEscrow.ts] line 70), [UInt64.fromUint] on every
    amount and [.compact()] on every amount read back.

    Numbers are modelled as integers ([Z]): the amounts, heights and
    timestamps the code handles are integers below 2^53, where the
    double arithmetic of JavaScript is exact.  [Number] is modelled on
    the integer syntax ([ws] [sign] digits [ws], and the blank string,
    which JavaScript reads as 0); any other string gives [NumOther],
    which stands for [NaN] or a numeric syntax (fraction, exponent, hex,
    [Infinity]) that this model does not evaluate. *)
From S2P Require Import Prelude.
From Stdlib Require Import Ascii DecimalString DecimalN.

Inductive js_number :=
  | NumInt (z : Z)
  | NumOther.

#[export] Instance js_number_eq_dec : EqDecision js_number.
Proof. solve_decision. Qed.

(** JavaScript's StrWhiteSpaceChar, restricted to ASCII. *)
Definition is_ws (c : ascii) : bool :=
  let n := nat_of_ascii c in ((9 <=? n) && (n <=? 13)) || (n =? 32).

Fixpoint trim_left (s : string) : string :=
  match s with
  | EmptyString => EmptyString
  | String c s' => if is_ws c then trim_left s' else s
  end.

Fixpoint trim_right (s : string) : string :=
  match s with
  | EmptyString => EmptyString
  | String c s' =>
      match trim_right s' with
      | EmptyString => if is_ws c then EmptyString else String c EmptyString
      | r => String c r
      end
  end.

Definition js_trim (s : string) : string := trim_right (trim_left s).

(** A non-empty run of decimal digits. *)
Definition digits_value (s : string) : js_number :=
  match s with
  | EmptyString => NumOther
  | _ => match NilEmpty.uint_of_string s with
         | Some d => NumInt (Z.of_N (N.of_uint d))
         | None => NumOther
         end
  end.

Definition js_negate (n : js_number) : js_number :=
  match n with NumInt z => NumInt (- z) | NumOther => NumOther end.

(** [Number(s)] *)
Definition js_Number (s : string) : js_number :=
  match js_trim s with
  | EmptyString => NumInt 0
  | String c rest =>
      if Ascii.eqb c "-" then js_negate (digits_value rest)
      else if Ascii.eqb c "+" then digits_value rest
      else digits_value (String c rest)
  end.

(** [n.toString()] on an integer: its decimal digits, with a minus sign
    when negative. *)
Definition js_toString (z : Z) : string :=
  if (z <? 0)%Z
  then String "-" (NilEmpty.string_of_uint (N.to_uint (Z.to_N (- z))))
  else NilEmpty.string_of_uint (N.to_uint (Z.to_N z)).

(** [UInt64.fromUint(v)]: the SDK throws on a negative value and keeps
    the low 64 bits of a non-negative one ([(v & 0xFFFFFFFF) >>> 0] and
    [(v / 0x100000000) >>> 0]). *)
Definition uint64_fromUint (v : Z) : js_result Z :=
  if (v <? 0)%Z then Thrown (ErrUInt64 "Unsigned integer cannot be negative")
  else Returned (v mod 2 ^ 64)%Z.

(** ** Lemmas *)

Fixpoint str_forall (p : ascii -> bool) (s : string) : bool :=
  match s with
  | EmptyString => true
  | String c s' => p c && str_forall p s'
  end.

(** [s.length] in JavaScript, for the string whose UTF-8 encoding is
    [s]: UTF-16 code units, one per character of one to three bytes and
    two per character of four bytes; continuation bytes count nothing. *)
Fixpoint js_length (s : string) : nat :=
  match s with
  | EmptyString => 0
  | String c s' =>
      let n := nat_of_ascii c in
      (if n <? 128 then 1 else if n <? 192 then 0 else if n <? 240 then 1 else 2) + js_length s'
  end.

Definition is_digit (c : ascii) : bool :=
  (48 <=? nat_of_ascii c)%nat && (nat_of_ascii c <=? 57)%nat.

Lemma digit_not_ws c : is_digit c = true -> is_ws c = false.
Proof.
  unfold is_digit, is_ws. intros [H1 H2]%andb_prop.
  apply Nat.leb_le in H1. apply Nat.leb_le in H2.
  apply orb_false_iff. split; [apply andb_false_iff; right|]; apply Nat.leb_gt || apply Nat.eqb_neq; lia.
Qed.

Lemma trim_right_id s : str_forall (fun c => negb (is_ws c)) s = true -> trim_right s = s.
Proof.
  induction s as [|c s IH]; simpl; [done|].
  intros [Hc Hs]%andb_prop. rewrite (IH Hs).
  destruct s; [|done]. apply negb_true_iff in Hc. by rewrite Hc.
Qed.

Lemma string_of_uint_digits d :
  str_forall is_digit (NilEmpty.string_of_uint d) = true.
Proof. induction d; simpl; rewrite ?IHd; reflexivity. Qed.

Lemma str_forall_impl (p q : ascii -> bool) s :
  (forall c, p c = true -> q c = true) -> str_forall p s = true -> str_forall q s = true.
Proof.
  intros Hpq. induction s as [|c s IH]; simpl; [done|].
  intros [Hc Hs]%andb_prop. by rewrite (Hpq c Hc), (IH Hs).
Qed.

Lemma js_trim_id s : str_forall (fun c => negb (is_ws c)) s = true -> js_trim s = s.
Proof.
  intros H. unfold js_trim. rewrite <- (trim_right_id s H) at 2.
  f_equal. destruct s as [|c s]; simpl in *; [done|].
  apply andb_prop in H as [Hc _]. apply negb_true_iff in Hc. by rewrite Hc.
Qed.

Lemma js_trim_digits s : str_forall is_digit s = true -> js_trim s = s.
Proof.
  intros H. apply js_trim_id. eapply str_forall_impl; [|exact H].
  intros c Hc. by rewrite digit_not_ws.
Qed.

Lemma N_to_uint_not_Nil (n : N) : N.to_uint n <> Decimal.Nil.
Proof.
  intros Hn. pose proof (Unsigned.of_to n) as E. rewrite Hn in E.
  simpl in E. subst n. discriminate.
Qed.

(** A printed natural number is a non-empty run of digits, and [Number]
    reads it back. *)
Lemma js_Number_digits (n : N) :
  js_Number (NilEmpty.string_of_uint (N.to_uint n)) = NumInt (Z.of_N n).
Proof.
  unfold js_Number. rewrite js_trim_digits by apply string_of_uint_digits.
  rewrite <- (Unsigned.of_to n) at 2.
  pose proof (N_to_uint_not_Nil n) as Hne. pose proof (NilEmpty.usu (N.to_uint n)) as Hu.
  destruct (N.to_uint n); [done|..]; simpl in *; rewrite Hu; reflexivity.
Qed.

Lemma digits_value_uint (n : N) :
  digits_value (NilEmpty.string_of_uint (N.to_uint n)) = NumInt (Z.of_N n).
Proof.
  rewrite <- (Unsigned.of_to n) at 2.
  pose proof (N_to_uint_not_Nil n) as Hne. pose proof (NilEmpty.usu (N.to_uint n)) as Hu.
  destruct (N.to_uint n); [done|..]; simpl in *; rewrite Hu; reflexivity.
Qed.

(** ** Round trip of the expiration message *)

(** [Number(z.toString())] gives back [z]: the expiration instant that
    [requestEscrowWithSSS] writes into the first transfer's message is
    the one [searchEscrow] reads back. *)
Theorem js_Number_toString (z : Z) : js_Number (js_toString z) = NumInt z.
Proof.
  unfold js_toString. destruct (Z.ltb_spec z 0) as [Hneg|Hnn].
  - unfold js_Number. rewrite js_trim_id.
    + simpl. rewrite digits_value_uint. simpl. f_equal. lia.
    + simpl. eapply str_forall_impl; [|apply string_of_uint_digits].
      intros c Hc. by rewrite digit_not_ws.
  - rewrite js_Number_digits. f_equal. lia.
Qed.

Example js_Number_blank : js_Number "  " = NumInt 0.
Proof. reflexivity. Qed.

Example js_Number_signed : js_Number " -42 " = NumInt (-42).
Proof. reflexivity. Qed.

Example js_Number_fraction : js_Number "1.5" = NumOther.
Proof. reflexivity. Qed.
