(* ===== verification/Ledger.v ===== *)
(** The ledger as the escrow code sees it through [symbol-sdk]: the
    transaction objects it builds and reads back, and the node it queries
    through [RepositoryFactoryHttp].  The SDK and the node are outside the
    sources; this file gives only the fields and the queries the code
    uses, with their failure modes (an unknown account or transaction, a
    missing block: the request's observable errors and [firstValueFrom]
    throws). *)
From S2P Require Import Prelude JsValue.

(** [TransactionGroup] *)
Inductive TransactionGroup := Unconfirmed | Confirmed | Partial | Failed.

#[export] Instance TransactionGroup_eq_dec : EqDecision TransactionGroup.
Proof. solve_decision. Defined.

#[export] Instance TransactionGroup_countable : Countable TransactionGroup.
Proof.
  refine {| encode g := match g with
                        | Unconfirmed => 1 | Confirmed => 2 | Partial => 3 | Failed => 4
                        end%positive;
            decode p := match p with
                        | 1 => Some Unconfirmed | 2 => Some Confirmed
                        | 3 => Some Partial | 4 => Some Failed | _ => None
                        end%positive |}.
  by intros [].
Defined.

(** An address is its 39-character plain form ([Address.plain()]). *)
Abbreviation Address := string.

(** [new Mosaic(new MosaicId(id), UInt64)]: the id in hex, the amount as
    the value of the [UInt64]. *)
Record Mosaic := mkMosaic { mosaic_id : string; mosaic_amount : Z }.

(** A [TransferTransaction] once placed in an aggregate
    ([toAggregate(publicAccount)] sets its signer).  A message is kept as
    its payload: [PlainMessage.create(m).payload = m] and
    [EmptyMessage.payload = ""]. *)
Record TransferTransaction := mkTransfer {
  tt_signer : Address;
  tt_recipient : Address;
  tt_mosaics : list Mosaic;
  tt_message : string
}.

(** An inner transaction of an aggregate: a transfer, or a transaction of
    another type (which has no [recipientAddress], [mosaics] nor
    [message]). *)
Inductive InnerTransaction :=
  | ITransfer (t : TransferTransaction)
  | IOther (type_code : Z).

(** [transactionInfo] of a transaction the node returns. *)
Record TransactionInfo := mkInfo { ti_hash : string; ti_height : Z }.

(** An [AggregateTransaction] as [getTransaction] returns it. *)
Record AggregateTransaction := mkAggregate {
  agg_info : TransactionInfo;
  agg_inner : list InnerTransaction
}.

(** [TransactionStatus] *)
Record TransactionStatus := mkStatus {
  ts_group : string;
  ts_code : string;
  ts_hash : string
}.

(** [AccountInfo]: the canonical address of an account the node knows. *)
Record AccountInfo := mkAccount { ai_address : Address; ai_publicKey : string }.

(** The node behind the repositories.  Each field answers one query of
    the SDK; a missing entry is a failed request. *)
Record Node := mkNode {
  nd_accounts : gmap string AccountInfo;                  (* getAccountInfo *)
  nd_search : gmap (TransactionGroup * string) (list TransactionInfo);
      (* search({type: AGGREGATE_BONDED, group, address, order: Desc}) *)
  nd_transactions : gmap (TransactionGroup * string) AggregateTransaction;
      (* getTransaction(hash, group) *)
  nd_blocks : gmap Z Z;                                   (* getBlockByHeight: timestamp *)
  nd_height : Z;                                          (* getChainInfo().height *)
  nd_status : gmap string TransactionStatus               (* getTransactionStatus *)
}.

Section Queries.
Variable nd : Node.

Definition getAccountInfo (a : Address) : js_result AccountInfo :=
    match nd_accounts nd !! a with
    | Some ai => Returned ai
    | None => Thrown (ErrRequest "getAccountInfo")
    end.

  (** The first page of a search: the node's matches, at most [pageSize]. *)
Definition searchPage (g : TransactionGroup) (a : Address) (pageSize : nat)
      : js_result (list TransactionInfo) :=
    match nd_search nd !! (g, a) with
    | Some l => Returned (take pageSize l)
    | None => Returned []
    end.

Definition getTransaction (h : string) (g : TransactionGroup)
      : js_result AggregateTransaction :=
    match nd_transactions nd !! (g, h) with
    | Some t => Returned t
    | None => Thrown (ErrRequest "getTransaction")
    end.

Definition getBlockTimestamp (height : Z) : js_result Z :=
    match nd_blocks nd !! height with
    | Some ts => Returned ts
    | None => Thrown (ErrRequest "getBlockByHeight")
    end.

Definition getTransactionStatus (h : string) : js_result TransactionStatus :=
    match nd_status nd !! h with
    | Some st => Returned st
    | None => Thrown (ErrRequest "getTransactionStatus")
    end.
End Queries.
