(* ===== verification/Builder.v ===== *)
(** The Transaction Builder: the construction part of
    [requestEscrowWithSSS.ts] (lines 55-56 and 72-133) and of the older
    [escrowRequestWithSSS.ts] (lines 61-124).  The account lookups, the
    signer and the announcements around it are sequenced in
    [Orchestrator.v]; this file is the pure part, given the resolved
    accounts, the admin address and the current block's timestamp.  The
    admin address is used as given: the check of
    [Address.createFromRawAddress(adminAddress)] (line 95) is not
    modelled. *)
From S2P Require Import Prelude Config JsValue Ledger.
From Stdlib Require Import Ascii.

(** ** SDK constructors the builder calls *)

Definition is_hex (c : ascii) : bool :=
  let n := nat_of_ascii c in
  ((48 <=? n) && (n <=? 57)) || ((65 <=? n) && (n <=? 70)) || ((97 <=? n) && (n <=? 102)).

(** [new MosaicId(hex)]: sixteen hexadecimal digits, or it throws. *)
Definition MosaicId_create (s : string) : js_result string :=
  if (String.length s =? 16)%nat && str_forall is_hex s then Returned s
  else Thrown (ErrTypeError "MosaicId").

Definition ascii_upper (c : ascii) : ascii :=
  let n := nat_of_ascii c in
  if (97 <=? n) && (n <=? 122) then ascii_of_nat (n - 32) else c.

Fixpoint string_upper (s : string) : string :=
  match s with
  | EmptyString => EmptyString
  | String c s' => String (ascii_upper c) (string_upper s')
  end.

(** [mosaicId.toHex()]: upper-case hex. *)
Definition MosaicId_toHex (s : string) : string := string_upper s.

(** [new Mosaic(new MosaicId(id), UInt64.fromUint(v))] *)
Definition mosaic_of (id : string) (v : Z) : js_result Mosaic :=
  mid <-? MosaicId_create id ;;
  a <-? uint64_fromUint v ;;
  Returned (mkMosaic mid a).

(** ** The request of an escrow *)

Section Build.
Variable cfg : Config.

  (** [currentTime] and [expirationTime], lines 55-56: unix milliseconds. *)
Definition currentTime (blockTimestamp : Z) : Z :=
    blockTimestamp + epochAdjustment cfg * 1000.

Definition expirationTime (blockTimestamp : Z) : Z :=
    hashLockTxDuration cfg * 30 * 1000 + currentTime blockTimestamp.

  (** [price * servieFee * 1000000] with [servieFee = 0.1]: for an integer
      price, the double product truncated by [UInt64.fromUint] equals
      [price * 100000]. *)
Definition serviceFee (price : Z) : Z := price * servieFee_ppm cfg.

  (** Lines 72-110: the three inner transfers in the order of
      [aggregateArray], each placed under its signer's public account. *)
Definition build_inner (client target : AccountInfo) (adminAddress : Address)
      (blockTimestamp : Z) (mosaicId : string) (amount price : Z) (message : string)
      : js_result (list InnerTransaction) :=
    m1 <-? mosaic_of (currencyMosaicID cfg) (price * 1000000) ;;
    let tx1 := mkTransfer (ai_address client) (ai_address target) [m1]
                 (js_toString (expirationTime blockTimestamp)) in
    m2 <-? mosaic_of mosaicId amount ;;
    let tx2 := mkTransfer (ai_address target) (ai_address client) [m2] message in
    m3 <-? mosaic_of (currencyMosaicID cfg) (serviceFee price) ;;
    let tx3 := mkTransfer (ai_address client) adminAddress [m3] (servieName cfg) in
    Returned [ITransfer tx1; ITransfer tx2; ITransfer tx3].

  (** Lines 124-133: the hash lock posts 10 XYM for [hashLockTxDuration]
      blocks on the hash of the signed bundle. *)
Record HashLockTransaction := mkHashLock {
    hl_mosaic : Mosaic;
    hl_duration : Z;
    hl_hash : string
  }.

Definition build_hashLock (signedAggregateHash : string) : js_result HashLockTransaction :=
    m <-? mosaic_of (currencyMosaicID cfg) (10 * 1000000) ;;
    d <-? uint64_fromUint (hashLockTxDuration cfg) ;;
    Returned (mkHashLock m d signedAggregateHash).
End Build.

(** The older builder of [escrowRequestWithSSS.ts], lines 61-104: the
    first and third transfers carry [EmptyMessage], the fee is
    [price*0.1*1000000] and the currency is the testnet literal. *)
Definition legacy_currency : string := "72C0212E67A08BCE".

Definition legacy_build_inner (client target : AccountInfo) (adminAddress : Address)
    (mosaicId : string) (amount price : Z) (message : string)
    : js_result (list InnerTransaction) :=
  m1 <-? mosaic_of legacy_currency (price * 1000000) ;;
  let tx1 := mkTransfer (ai_address client) (ai_address target) [m1] "" in
  m2 <-? mosaic_of mosaicId amount ;;
  let tx2 := mkTransfer (ai_address target) (ai_address client) [m2] message in
  m3 <-? mosaic_of legacy_currency (price * 100000) ;;
  let tx3 := mkTransfer (ai_address client) adminAddress [m3] "" in
  Returned [ITransfer tx1; ITransfer tx2; ITransfer tx3].

(** The older hash lock, lines 118-124: 10 XYM for 480 blocks. *)
Definition legacy_build_hashLock (signedAggregateHash : string) : js_result HashLockTransaction :=
  m <-? mosaic_of legacy_currency (10 * 1000000) ;;
  d <-? uint64_fromUint 480 ;;
  Returned (mkHashLock m d signedAggregateHash).

(** ** Properties of the builder *)

Definition valid_mosaicId (s : string) : bool :=
  (String.length s =? 16)%nat && str_forall is_hex s.

Definition uint64_range (v : Z) : bool := ((0 <=? v) && (v <? 2 ^ 64))%Z.

Lemma uint64_fromUint_in_range (v : Z) : uint64_range v = true -> uint64_fromUint v = Returned v.
Proof.
  unfold uint64_range, uint64_fromUint. intros [H1 H2]%andb_prop.
  apply Z.leb_le in H1. apply Z.ltb_lt in H2.
  destruct (Z.ltb_spec v 0); [lia|]. f_equal. apply Z.mod_small. lia.
Qed.

Lemma uint64_fromUint_neg (v : Z) : (v < 0)%Z -> uint64_fromUint v = Thrown (ErrUInt64 "Unsigned integer cannot be negative").
Proof. unfold uint64_fromUint. intros H. destruct (Z.ltb_spec v 0); [done | lia]. Qed.

Lemma mosaic_of_ok id v :
  valid_mosaicId id = true -> uint64_range v = true -> mosaic_of id v = Returned (mkMosaic id v).
Proof.
  intros Hid Hv. unfold mosaic_of, MosaicId_create. fold (valid_mosaicId id).
  rewrite Hid. simpl. by rewrite uint64_fromUint_in_range.
Qed.

Lemma mosaic_of_bad_id id v :
  valid_mosaicId id = false -> mosaic_of id v = Thrown (ErrTypeError "MosaicId").
Proof. intros Hid. unfold mosaic_of, MosaicId_create. fold (valid_mosaicId id). by rewrite Hid. Qed.

Lemma mosaic_of_neg id (v : Z) :
  valid_mosaicId id = true -> (v < 0)%Z ->
  mosaic_of id v = Thrown (ErrUInt64 "Unsigned integer cannot be negative").
Proof.
  intros Hid Hv. unfold mosaic_of, MosaicId_create. fold (valid_mosaicId id).
  rewrite Hid. simpl. by rewrite uint64_fromUint_neg.
Qed.

  (** The lock [build_hashLock] returns is on the hash it was given. *)
Lemma build_hashLock_hash cfg h l : build_hashLock cfg h = Returned l -> hl_hash l = h.
Proof. unfold build_hashLock. destruct (mosaic_of _ _), (uint64_fromUint _); simpl; intros; by simplify_eq. Qed.

#[export] Hint Resolve mosaic_of_ok uint64_fromUint_in_range : escrow.

Section BuildSpec.
Variable cfg : Config.
Hypothesis Hcur : valid_mosaicId (currencyMosaicID cfg) = true.

  (** The three inner transfers in their fixed order, with the payment
      [price] XYM to the counterparty carrying the expiration instant, the
      traded mosaic back to the requester carrying the message, and the fee
      [price * servieFee] to the service address carrying the marker. *)
Definition request_inner (client target : AccountInfo) (adminAddress : Address)
      (blockTimestamp : Z) (mosaicId : string) (amount price : Z) (message : string)
      : list InnerTransaction :=
    [ ITransfer (mkTransfer (ai_address client) (ai_address target)
                  [mkMosaic (currencyMosaicID cfg) (price * 1000000)]
                  (js_toString (expirationTime cfg blockTimestamp)));
      ITransfer (mkTransfer (ai_address target) (ai_address client)
                  [mkMosaic mosaicId amount] message);
      ITransfer (mkTransfer (ai_address client) adminAddress
                  [mkMosaic (currencyMosaicID cfg) (serviceFee cfg price)] (servieName cfg)) ].

  (** C1: For amounts the [UInt64]s hold and a hex mosaic id, the request
      builder returns exactly three transfers in the fixed order: the
      payment of [price] XYM (in micro-units) to the counterparty carrying
      the expiration instant, the [amount] of the traded mosaic to the
      requester carrying the message, and the fee [price * servieFee] to
      the service address carrying the service marker. *)
Theorem build_inner_spec client target adminAddress blockTimestamp mosaicId
      (amount price : Z) message :
    valid_mosaicId mosaicId = true ->
    uint64_range amount = true ->
    uint64_range (price * 1000000) = true ->
    uint64_range (serviceFee cfg price) = true ->
    build_inner cfg client target adminAddress blockTimestamp mosaicId amount price message
    = Returned (request_inner client target adminAddress blockTimestamp mosaicId amount price message).
  Proof. intros. unfold build_inner. rewrite !mosaic_of_ok by done. reflexivity. Qed.

  (** A negative price makes the first [UInt64.fromUint] throw: nothing is
      built. *)
Lemma build_inner_negative_price client target adminAddress blockTimestamp mosaicId
      (amount price : Z) message :
    (price < 0)%Z ->
    build_inner cfg client target adminAddress blockTimestamp mosaicId amount price message
    = Thrown (ErrUInt64 "Unsigned integer cannot be negative").
  Proof. intros. unfold build_inner. rewrite mosaic_of_neg by (done || lia). reflexivity. Qed.

  (** A mosaic id the form accepts ([[A-Z0-9]{16}]) but which is not hex
      makes [new MosaicId] throw after the payment is built. *)
Lemma build_inner_bad_mosaicId client target adminAddress blockTimestamp mosaicId
      (amount price : Z) message :
    uint64_range (price * 1000000) = true ->
    valid_mosaicId mosaicId = false ->
    build_inner cfg client target adminAddress blockTimestamp mosaicId amount price message
    = Thrown (ErrTypeError "MosaicId").
  Proof.
    intros. unfold build_inner. rewrite mosaic_of_ok by done. simpl.
    by rewrite mosaic_of_bad_id.
  Qed.
End BuildSpec.

(** ** Concrete runs *)

Definition alice : AccountInfo := mkAccount "TALICE" "PK-ALICE".
Definition bob : AccountInfo := mkAccount "TBOB" "PK-BOB".
Definition admin_address : Address := "TADMIN".

(** The end-to-end example of the specification: amount 5, price 100,
    message "m". *)
Lemma build_inner_spec_witness :
  build_inner default_config alice bob admin_address 1000 "6BED913FA20223F8" 5 100 "m"
  = Returned (request_inner default_config alice bob admin_address 1000 "6BED913FA20223F8" 5 100 "m").
Proof. apply build_inner_spec; vm_compute; reflexivity. Defined.
