(* ===== verification/Search.v ===== *)
(** The Escrow Reconstructor: [searchEscrow] of [utils/searchEscrow.ts]
    and the record type of [types/escrowAggregateTransaction.ts].  The
    node is fixed during a search (the model's [Node]), so the loop's
    awaited requests are the queries of [Ledger.v]; the per-item
    [try ... catch (e) {}] becomes [js_catch], and the loop that pushes
    into [resultData] is [search_loop].  [decode_escrow] and [escrow_of]
    are a reference decoder, by pattern matching on the inner
    transactions, that one iteration of the loop is proved equal to. *)
From S2P Require Import Prelude Config JsValue Ledger Builder.
From Stdlib Require Import QArith.

(** [escrowAggregateTransaction], [types/escrowAggregateTransaction.ts]
    lines 1-11.  [price] is a JS number obtained by a division; it is
    kept as a reduced rational. *)
Record escrowAggregateTransaction := mkEscrow {
  recipientAddress : Address;
  signerAddress : Address;
  blockCreateTime : Z;
  expirationTime_of : js_number;
  mosaicId_of : string;
  amount_of : Z;
  price_of : Q;
  message_of : string;
  hash_of : string
}.

(** [x / 1000000] on a micro-unit amount. *)
Definition div_1e6 (z : Z) : Q := Qred (Qmake z 1000000).

(** [txInfo.innerTransactions[i] as TransferTransaction]: reading a
    transfer field of it throws when the index is out of range or the
    inner transaction is not a transfer. *)
Definition transfer_at (inner : list InnerTransaction) (i : nat) : option TransferTransaction :=
  match inner !! i with
  | Some (ITransfer t) => Some t
  | _ => None
  end.

Section Search.
Variable cfg : Config.
Variable nd : Node.
Variable transactionGroup : TransactionGroup.

  (** The body of the [try] block, lines 48-79, for one search result. *)
Definition search_item_body (e : TransactionInfo)
      : js_result (option escrowAggregateTransaction) :=
    blockCreateTime <-?
      (if (0 <? ti_height e)%Z
       then ts <-? getBlockTimestamp nd (ti_height e) ;;
            Returned (ts + epochAdjustment cfg * 1000)%Z
       else Returned 0%Z) ;;
    txInfo <-? getTransaction nd (ti_hash e) transactionGroup ;;
    let inner := agg_inner txInfo in
    tx3 <-? js_get "tx3.message" (transfer_at inner 2) ;;
    if tt_message tx3 === servieName cfg then
      tx1 <-? js_get "tx1.recipientAddress" (transfer_at inner 0) ;;
      tx2 <-? js_get "tx2.mosaics" (transfer_at inner 1) ;;
      m2 <-? js_get "tx2.mosaics[0]" (head (tt_mosaics tx2)) ;;
      m1 <-? js_get "tx1.mosaics[0]" (head (tt_mosaics tx1)) ;;
      Returned (Some {|
        signerAddress := tt_signer tx1;
        recipientAddress := tt_recipient tx1;
        blockCreateTime := blockCreateTime;
        expirationTime_of := js_Number (tt_message tx1);
        mosaicId_of := MosaicId_toHex (mosaic_id m2);
        amount_of := mosaic_amount m2;
        price_of := div_1e6 (mosaic_amount m1);
        message_of := tt_message tx2;
        hash_of := ti_hash (agg_info txInfo) |})
    else Returned None.

  (** Lines 46-81: the loop; an item whose body throws is skipped. *)
Fixpoint search_loop (page : list TransactionInfo) (resultData : list escrowAggregateTransaction)
      : js_result (list escrowAggregateTransaction) :=
    match page with
    | [] => Returned resultData
    | e :: page' =>
        r <-? js_catch (search_item_body e) (fun _ => Returned None) ;;
        search_loop page' (match r with Some x => resultData ++ [x] | None => resultData end)
    end.
End Search.

(** [searchEscrow(clientAddress, transactionGroup)], lines 16-83.  The
    argument [conn] is the outcome of [connectNode(nodeList)]: [None] when
    it returns [''], the node otherwise. *)
Definition searchEscrow (cfg : Config) (conn : option Node) (clientAddress : Address)
    (transactionGroup : TransactionGroup)
    : js_result (option (list escrowAggregateTransaction)) :=
  match conn with
  | None => Returned None
  | Some nd =>
      clinetAccountInfo <-? getAccountInfo nd clientAddress ;;
      page <-? searchPage nd transactionGroup (ai_address clinetAccountInfo) 100 ;;
      resultData <-? search_loop cfg nd transactionGroup page [] ;;
      Returned (Some resultData)
  end.

(** ** The loop as a filter *)

Section SearchLemmas.
Variable cfg : Config.
Variable nd : Node.
Variable g : TransactionGroup.

  (** The outcome of one iteration of the loop: the record it pushes, if
      any. *)
Definition search_item (e : TransactionInfo) : option escrowAggregateTransaction :=
    match search_item_body cfg nd g e with
    | Returned r => r
    | _ => None
    end.

Lemma search_item_body_not_Hangs e : search_item_body cfg nd g e <> Hangs.
  Proof.
    unfold search_item_body, js_bind, getBlockTimestamp, getTransaction, js_get.
    repeat (case_match; try done).
  Qed.

Lemma search_item_catch e :
    js_catch (search_item_body cfg nd g e) (fun _ => Returned None) = Returned (search_item e).
  Proof.
    unfold search_item. pose proof (search_item_body_not_Hangs e).
    destruct (search_item_body cfg nd g e); done.
  Qed.

Lemma search_loop_omap page acc :
    search_loop cfg nd g page acc = Returned (acc ++ omap search_item page).
  Proof.
    revert acc. induction page as [|e page IH]; intros acc; simpl.
    - by rewrite app_nil_r.
    - rewrite search_item_catch. simpl. rewrite IH.
      destruct (search_item e); simpl; by rewrite <- ?app_assoc.
  Qed.
End SearchLemmas.

#[export] Hint Rewrite search_loop_omap : escrow_rw.

(** [searchEscrow] on a reachable node that knows the client: the records
    of the first page, in its order. *)
Lemma searchEscrow_reachable cfg nd a g acct :
  nd_accounts nd !! a = Some acct ->
  searchEscrow cfg (Some nd) a g
  = Returned (Some (omap (search_item cfg nd g)
                      (default [] (take 100 <$> nd_search nd !! (g, ai_address acct))))).
Proof.
  intros Ha. unfold searchEscrow, getAccountInfo, searchPage. rewrite Ha. simpl.
  destruct (nd_search nd !! _); simpl; autorewrite with escrow_rw; done.
Qed.

Lemma searchEscrow_Some_inv cfg conn a g rs :
  searchEscrow cfg conn a g = Returned (Some rs) ->
  exists nd page, conn = Some nd /\ rs = omap (search_item cfg nd g) page.
Proof.
  destruct conn as [nd|]; simpl; [|discriminate].
  intros H. js_destruct H. rewrite search_loop_omap in E1. simpl in *.
  simplify_eq. eauto.
Qed.

(** What one record of the loop is made of. *)
Lemma search_item_Some_inv cfg nd g e r :
  search_item cfg nd g e = Some r ->
  exists agg tx3, getTransaction nd (ti_hash e) g = Returned agg /\
    transfer_at (agg_inner agg) 2 = Some tx3 /\ tt_message tx3 = servieName cfg /\
    hash_of r = ti_hash (agg_info agg).
Proof.
  unfold search_item, search_item_body. intros H.
  destruct (if (0 <? ti_height e)%Z then _ else _); simpl in H; try discriminate.
  destruct (getTransaction nd (ti_hash e) g) as [agg| |] eqn:Eg; simpl in H; try discriminate.
  destruct (transfer_at (agg_inner agg) 2) as [tx3|] eqn:Et; simpl in H; try discriminate.
  destruct (String.eqb_spec (tt_message tx3) (servieName cfg)); [|discriminate].
  js_destruct H. simplify_eq. eauto 10.
Qed.

(** ** Properties of the reconstructor *)

(** C3: The reconstructor never returns a record for a bundle whose third
    inner transfer's message is not the service marker: every record it
    returns was read from a fetched bonded aggregate whose third inner
    transaction is a transfer carrying [servieName], and carries that
    aggregate's hash. *)
Theorem searchEscrow_only_marked cfg conn a g rs r :
  searchEscrow cfg conn a g = Returned (Some rs) -> r ∈ rs ->
  exists nd e agg tx3, conn = Some nd /\
    getTransaction nd (ti_hash e) g = Returned agg /\
    transfer_at (agg_inner agg) 2 = Some tx3 /\ tt_message tx3 = servieName cfg /\
    hash_of r = ti_hash (agg_info agg).
Proof.
  intros H Hr. apply searchEscrow_Some_inv in H as (nd & page & -> & ->).
  apply list_elem_of_omap in Hr as (e & _ & He).
  apply search_item_Some_inv in He as (agg & tx3 & ?). eauto 10.
Qed.

(** The escrow layout the reconstructor reads: three transfers, the
    third carrying the marker, the first two carrying a mosaic. *)
Definition escrow_shape (cfg : Config) (inner : list InnerTransaction) : bool :=
  match transfer_at inner 0, transfer_at inner 1, transfer_at inner 2 with
  | Some tx1, Some tx2, Some tx3 =>
      (tt_message tx3 === servieName cfg) &&
      negb (bool_decide (tt_mosaics tx1 = [])) && negb (bool_decide (tt_mosaics tx2 = []))
  | _, _, _ => false
  end.

(** The node answers the two requests the loop makes for an entry. *)
Definition entry_fetchable (nd : Node) (g : TransactionGroup) (e : TransactionInfo)
    (agg : AggregateTransaction) : Prop :=
  getTransaction nd (ti_hash e) g = Returned agg /\
  ((ti_height e <= 0)%Z \/ is_Some (nd_blocks nd !! ti_height e)).

(** ** A reference decoder

    What a record is, read off the bonded aggregate by pattern matching
    on its inner transactions (the specification's EscrowRecord): three
    leading transfers, the third carrying the service marker, the first
    two carrying a mosaic.  [search_item] is proved equal to it below. *)
Definition decode_escrow (cfg : Config) (blockCreateTime : Z) (agg : AggregateTransaction)
    : option escrowAggregateTransaction :=
  match agg_inner agg with
  | ITransfer tx1 :: ITransfer tx2 :: ITransfer tx3 :: _ =>
      if tt_message tx3 === servieName cfg then
        match tt_mosaics tx1, tt_mosaics tx2 with
        | m1 :: _, m2 :: _ =>
            Some (mkEscrow (tt_recipient tx1) (tt_signer tx1) blockCreateTime
                    (js_Number (tt_message tx1)) (MosaicId_toHex (mosaic_id m2))
                    (mosaic_amount m2) (div_1e6 (mosaic_amount m1)) (tt_message tx2)
                    (ti_hash (agg_info agg)))
        | _, _ => None
        end
      else None
  | _ => None
  end.

(** The block time of an entry: 0 while unconfirmed, else the block's
    timestamp shifted to the Unix epoch. *)
Definition entry_time (cfg : Config) (nd : Node) (e : TransactionInfo) : option Z :=
  if (0 <? ti_height e)%Z
  then (fun ts => ts + epochAdjustment cfg * 1000)%Z <$> nd_blocks nd !! ti_height e
  else Some 0%Z.

(** The reference: the record of an entry, or none. *)
Definition escrow_of (cfg : Config) (nd : Node) (g : TransactionGroup) (e : TransactionInfo)
    : option escrowAggregateTransaction :=
  bt ← entry_time cfg nd e;
  agg ← nd_transactions nd !! (g, ti_hash e);
  decode_escrow cfg bt agg.

(** The reference decoder accepts exactly the escrow layout. *)
Lemma decode_escrow_shape cfg bt agg :
  is_Some (decode_escrow cfg bt agg) <-> escrow_shape cfg (agg_inner agg) = true.
Proof.
  unfold decode_escrow, escrow_shape, transfer_at.
  destruct (agg_inner agg) as [|[tx1|] [|[tx2|] [|[tx3|] rest]]]; simpl;
    try (split; [intros []; discriminate | discriminate]).
  destruct (tt_message tx3 === servieName cfg); simpl; [|split; [intros []; discriminate | discriminate]].
  destruct (tt_mosaics tx1), (tt_mosaics tx2); simpl;
    split; try (intros []; discriminate); try discriminate; eauto.
Qed.

(** C32: Equivalence with the reference decoder: one iteration of the
    loop (the [try] block and its empty [catch]) pushes exactly the record
    [escrow_of] reads off the entry's aggregate, and nothing when that is
    none; the order in which the code reads the inner transactions and
    the exceptions it swallows make no difference. *)
Theorem search_item_reference cfg nd g e : search_item cfg nd g e = escrow_of cfg nd g e.
Proof.
  unfold search_item, search_item_body, escrow_of, entry_time, getBlockTimestamp, getTransaction.
  destruct (0 <? ti_height e)%Z; [destruct (nd_blocks nd !! ti_height e)|]; simpl; try done.
  all: destruct (nd_transactions nd !! _) as [agg|]; simpl; [|done].
  all: unfold decode_escrow, transfer_at, js_get.
  all: destruct (agg_inner agg) as [|[tx1|] [|[tx2|] [|[tx3|] rest]]]; simpl; try done.
  all: destruct (_ === servieName cfg); simpl; try done.
  all: destruct (tt_mosaics tx1), (tt_mosaics tx2); reflexivity.
Qed.

(** C4: A bundle with the escrow layout and the marker always yields a
    record, when the node answers the requests for it. *)
Theorem search_item_shape_positive cfg nd g e agg :
  entry_fetchable nd g e agg -> escrow_shape cfg (agg_inner agg) = true ->
  is_Some (search_item cfg nd g e).
Proof.
  intros [Hget Hblk] Hs. unfold search_item, search_item_body.
  assert (exists t, (if (0 <? ti_height e)%Z
                     then ts <-? getBlockTimestamp nd (ti_height e) ;;
                          Returned (ts + epochAdjustment cfg * 1000)%Z
                     else Returned 0%Z) = Returned t) as [t ->].
  { destruct (Z.ltb_spec 0 (ti_height e)); [|eauto].
    destruct Hblk as [|[ts Hts]]; [lia|]. unfold getBlockTimestamp. rewrite Hts. eauto. }
  simpl. rewrite Hget. simpl. unfold escrow_shape in Hs.
  destruct (transfer_at _ 0) as [tx1|], (transfer_at _ 1) as [tx2|],
    (transfer_at _ 2) as [tx3|]; try discriminate. simpl.
  apply andb_prop in Hs as [[-> H1]%andb_prop H2]. simpl.
  destruct (tt_mosaics tx1), (tt_mosaics tx2); done.
Qed.

(** C14: Results keep the ledger's order: they are the records of a
    sublist of the first search page, in the same order. *)
Theorem searchEscrow_order cfg nd a g acct rs :
  nd_accounts nd !! a = Some acct ->
  searchEscrow cfg (Some nd) a g = Returned (Some rs) ->
  exists sub, sub `sublist_of` default [] (take 100 <$> nd_search nd !! (g, ai_address acct)) /\
    Forall2 (fun e r => search_item cfg nd g e = Some r) sub rs.
Proof.
  intros Ha H. rewrite (searchEscrow_reachable _ _ _ _ _ Ha) in H. simplify_eq.
  apply omap_sublist_Forall2.
Qed.

(** C15: An entry whose processing throws (a failed request, a missing
    inner transaction or mosaic) is skipped and does not affect the
    records of the other entries. *)
Theorem search_loop_skip_thrown cfg nd g l1 e l2 acc err :
  search_item_body cfg nd g e = Thrown err ->
  search_loop cfg nd g (l1 ++ e :: l2) acc = search_loop cfg nd g (l1 ++ l2) acc.
Proof.
  intros He. rewrite !search_loop_omap, omap_skip; [done|].
  unfold search_item. by rewrite He.
Qed.

(** C16: [searchEscrow] returns [undefined] exactly when no node is
    reachable; a reachable node that does not know the client's address
    makes it throw rather than return an empty list. *)
Theorem searchEscrow_undefined cfg conn a g :
  (searchEscrow cfg conn a g = Returned None <-> conn = None) /\
  (forall nd, conn = Some nd -> nd_accounts nd !! a = None ->
     searchEscrow cfg conn a g = Thrown (ErrRequest "getAccountInfo")).
Proof.
  split.
  - split; [|intros ->; done]. destruct conn as [nd|]; [|done].
    simpl. intros H. js_destruct H.
  - intros nd -> Ha. simpl. unfold getAccountInfo. by rewrite Ha.
Qed.

(** C33: Bound of a search: [searchEscrow] returns at most 100 records,
    the page size of its single [search] request; escrows past the first
    page of the client's bonded aggregates are never listed. *)
Theorem searchEscrow_page_bound cfg conn a g rs :
  searchEscrow cfg conn a g = Returned (Some rs) -> (length rs <= 100)%nat.
Proof.
  destruct conn as [nd|]; simpl; [|discriminate].
  intros H. js_destruct H. rewrite search_loop_omap in E1. simpl in *. simplify_eq.
  unfold searchPage in E0. etransitivity; [apply omap_length_le|].
  destruct (nd_search nd !! _); simplify_eq; simpl; [rewrite length_take; lia | lia].
Qed.

Lemma div_1e6_micro (p : Z) : div_1e6 (p * 1000000) = inject_Z p.
Proof.
  unfold div_1e6. rewrite <- inject_Z_Qred. apply Qred_complete.
  unfold Qeq. simpl. lia.
Qed.

(** The block time the loop computes, when the node answers for it. *)
Lemma entry_time_Returned cfg nd e bt :
  entry_time cfg nd e = Some bt ->
  (if (0 <? ti_height e)%Z
   then ts <-? getBlockTimestamp nd (ti_height e) ;; Returned (ts + epochAdjustment cfg * 1000)%Z
   else Returned 0%Z) = Returned bt.
Proof.
  unfold entry_time, getBlockTimestamp. destruct (0 <? ti_height e)%Z; [|by intros [= <-]].
  destruct (nd_blocks nd !! ti_height e); simpl; by intros [= <-].
Qed.

(** The record the reconstructor is meant to give back for a request
    built from these terms, included in a block at [blockCreateTime] (0
    while pending). *)
Definition expected_record (cfg : Config) (client target : AccountInfo) (blockCreateTime : Z)
    (blockTimestamp : Z) (mosaicId : string) (amount price : Z) (message hash : string)
    : escrowAggregateTransaction :=
  mkEscrow (ai_address target) (ai_address client) blockCreateTime
    (NumInt (expirationTime cfg blockTimestamp)) (MosaicId_toHex mosaicId)
    amount (inject_Z price) message hash.

(** The record an entry holding a built request yields. *)
Lemma search_item_request cfg nd g e bt info client target adminAddress
    blockTimestamp mosaicId amount price message :
  entry_time cfg nd e = Some bt ->
  getTransaction nd (ti_hash e) g =
    Returned (mkAggregate info (request_inner cfg client target adminAddress
                                  blockTimestamp mosaicId amount price message)) ->
  search_item cfg nd g e =
    Some (expected_record cfg client target bt blockTimestamp mosaicId amount price message
            (ti_hash info)).
Proof.
  intros Ht Hget. unfold search_item, search_item_body. rewrite (entry_time_Returned _ _ _ _ Ht).
  simpl. rewrite Hget. simpl. rewrite String.eqb_refl. simpl.
  unfold expected_record. by rewrite js_Number_toString, div_1e6_micro.
Qed.

(** C2: Round trip of the protocol: when the node (pending pool or
    confirmed ledger) holds the bonded aggregate whose inner transactions
    [requestEscrowWithSSS] built, and its search page for the client
    lists it, [searchEscrow] returns a record with the requester, the
    counterparty, the block time (0 while pending, the block's timestamp
    shifted by [epochAdjustment] once confirmed), the expiration instant
    written in the first message, the mosaic, the amount, the price in
    XYM, the message and the bundle's hash. *)
Theorem searchEscrow_roundtrip cfg nd a g acct e bt info client target adminAddress
    blockTimestamp mosaicId amount price message :
  nd_accounts nd !! a = Some acct ->
  e ∈ default [] (take 100 <$> nd_search nd !! (g, ai_address acct)) ->
  entry_time cfg nd e = Some bt ->
  getTransaction nd (ti_hash e) g =
    Returned (mkAggregate info (request_inner cfg client target adminAddress
                                  blockTimestamp mosaicId amount price message)) ->
  exists rs, searchEscrow cfg (Some nd) a g = Returned (Some rs) /\
    expected_record cfg client target bt blockTimestamp mosaicId amount price message
      (ti_hash info) ∈ rs.
Proof.
  intros Ha He Ht Hget. rewrite (searchEscrow_reachable _ _ _ _ _ Ha).
  eexists. split; [reflexivity|]. apply list_elem_of_omap. exists e. split; [done|].
  by apply search_item_request with adminAddress.
Qed.

(** The older builder's fee transfer carries the empty message. *)
Lemma legacy_inner_unmarked client target adminAddress mosaicId amount price message inner :
  legacy_build_inner client target adminAddress mosaicId amount price message = Returned inner ->
  exists tx3, transfer_at inner 2 = Some tx3 /\ tt_message tx3 = "".
Proof. unfold legacy_build_inner. intros Hb. js_destruct Hb. simplify_eq. eauto. Qed.

(** An aggregate whose third transfer does not carry the marker gives no
    record, whatever the node answers for the block. *)
Lemma search_item_unmarked cfg nd g e agg tx3 :
  getTransaction nd (ti_hash e) g = Returned agg ->
  transfer_at (agg_inner agg) 2 = Some tx3 -> tt_message tx3 <> servieName cfg ->
  search_item cfg nd g e = None.
Proof.
  intros Hget Htx3 Hm. unfold search_item, search_item_body.
  destruct (if (0 <? ti_height e)%Z then _ else _); simpl; [|done|done].
  rewrite Hget. simpl. rewrite Htx3. simpl.
  by destruct (String.eqb_spec (tt_message tx3) (servieName cfg)).
Qed.

(** C17: A request made through the older [escrowRequestWithSSS] (the
    one [pages/escrow-request] calls) is never listed by [searchEscrow]:
    its third transfer carries [EmptyMessage], whose payload [""] is not
    the service marker. *)
Theorem legacy_request_never_listed cfg nd g e info client target adminAddress
    mosaicId amount price message inner :
  servieName cfg <> "" ->
  legacy_build_inner client target adminAddress mosaicId amount price message = Returned inner ->
  getTransaction nd (ti_hash e) g = Returned (mkAggregate info inner) ->
  search_item cfg nd g e = None.
Proof.
  intros Hname Hb Hget. destruct (legacy_inner_unmarked _ _ _ _ _ _ _ _ Hb) as (tx3 & Htx3 & Hm).
  eapply search_item_unmarked; [exact Hget | exact Htx3 | congruence].
Qed.

(** ** Concrete runs *)

Definition demo_inner : list InnerTransaction :=
  request_inner default_config alice bob admin_address 1000 "6BED913FA20223F8" 5 100 "m".

Definition demo_legacy_inner : list InnerTransaction :=
  match legacy_build_inner alice bob admin_address "6BED913FA20223F8" 5 100 "m" with
  | Returned l => l
  | _ => []
  end.

Definition e_ok : TransactionInfo := mkInfo "H1" 0.
Definition e_legacy : TransactionInfo := mkInfo "H2" 0.
Definition e_missing : TransactionInfo := mkInfo "H404" 0.

(** A node whose pending pool holds one request of each builder, and
    whose search page also lists a hash it cannot return. *)
Definition demo_node : Node := {|
  nd_accounts := {[ "TALICE" := alice ]};
  nd_search := {[ (Partial, "TALICE") := [e_ok; e_missing; e_legacy] ]};
  nd_transactions := <[ (Partial, "H1") := mkAggregate e_ok demo_inner ]>
                       {[ (Partial, "H2") := mkAggregate e_legacy demo_legacy_inner ]};
  nd_blocks := ∅;
  nd_height := 10;
  nd_status := ∅
|}.

Definition demo_record : escrowAggregateTransaction :=
  expected_record default_config alice bob 0 1000 "6BED913FA20223F8" 5 100 "m" "H1".

Lemma searchEscrow_demo :
  searchEscrow default_config (Some demo_node) "TALICE" Partial = Returned (Some [demo_record]).
Proof. vm_compute. reflexivity. Qed.

Lemma searchEscrow_roundtrip_witness :
  exists rs, searchEscrow default_config (Some demo_node) "TALICE" Partial = Returned (Some rs) /\
    demo_record ∈ rs.
Proof.
  apply (searchEscrow_roundtrip default_config demo_node "TALICE" Partial alice e_ok 0 e_ok
           alice bob admin_address 1000 "6BED913FA20223F8" 5 100 "m");
    [reflexivity | vm_compute; left | reflexivity | reflexivity].
Defined.

Lemma searchEscrow_only_marked_witness :
  exists nd e agg tx3, Some demo_node = Some nd /\
    getTransaction nd (ti_hash e) Partial = Returned agg /\
    transfer_at (agg_inner agg) 2 = Some tx3 /\ tt_message tx3 = servieName default_config /\
    hash_of demo_record = ti_hash (agg_info agg).
Proof.
  apply (searchEscrow_only_marked default_config (Some demo_node) "TALICE" Partial [demo_record]);
    [exact searchEscrow_demo | left].
Defined.

Lemma search_item_shape_positive_witness :
  is_Some (search_item default_config demo_node Partial e_ok).
Proof.
  apply (search_item_shape_positive default_config demo_node Partial e_ok (mkAggregate e_ok demo_inner)).
  - split; [reflexivity | left; vm_compute; discriminate].
  - vm_compute. reflexivity.
Defined.

Lemma searchEscrow_order_witness :
  exists sub, sub `sublist_of` default [] (take 100 <$> nd_search demo_node !! (Partial, "TALICE")) /\
    Forall2 (fun e r => search_item default_config demo_node Partial e = Some r) sub [demo_record].
Proof.
  apply (searchEscrow_order default_config demo_node "TALICE" Partial alice);
    [reflexivity | exact searchEscrow_demo].
Defined.

Lemma search_loop_skip_thrown_witness :
  search_loop default_config demo_node Partial ([e_ok] ++ e_missing :: [e_legacy]) []
  = search_loop default_config demo_node Partial ([e_ok] ++ [e_legacy]) [].
Proof.
  apply (search_loop_skip_thrown _ _ _ _ _ _ _ (ErrRequest "getTransaction")).
  vm_compute. reflexivity.
Defined.

Lemma legacy_request_never_listed_witness :
  search_item default_config demo_node Partial e_legacy = None.
Proof.
  apply (legacy_request_never_listed default_config demo_node Partial e_legacy e_legacy
           alice bob admin_address "6BED913FA20223F8" 5 100 "m" demo_legacy_inner).
  - discriminate.
  - vm_compute. reflexivity.
  - reflexivity.
Defined.

Lemma searchEscrow_undefined_witness :
  searchEscrow default_config (Some demo_node) "TBOB" Partial = Thrown (ErrRequest "getAccountInfo").
Proof. apply (proj2 (searchEscrow_undefined default_config (Some demo_node) "TBOB" Partial) demo_node); reflexivity. Defined.

Lemma searchEscrow_page_bound_witness :
  searchEscrow default_config (Some demo_node) "TALICE" Partial = Returned (Some [demo_record]) /\
  (length [demo_record] <= 100)%nat.
Proof. split; [exact searchEscrow_demo | exact (searchEscrow_page_bound _ _ _ _ _ searchEscrow_demo)]. Defined.
