(* ===== verification/Tracker.v ===== *)
(** The Confirmation Tracker: the race between a listener notification
    and a delayed status poll, written three times in the sources with the
    same shape:
    - [requestEscrowWithSSS.ts] lines 145-163 (hash lock, [confirmed]) and
      lines 177-195 (bundle, [aggregateBondedAdded]);
    - [cosignedEscrowWithSSS.ts] lines 47-69 (cosignature, [confirmed] on
      the parent hash).
    Each is [await listener.open()] followed by a [new Promise] whose
    executor subscribes a callback (fetch the status, [listener.close()],
    [resolve]) and arms a 1000 ms timer (fetch the status; if its code is
    not ['Success'], [listener.close()] and [resolve]).  Nothing cancels
    the timer or guards the second [close].

    The race is a state machine: [tstep] is the executable step function
    (the environment picks the next event: a notification, the timer,
    the answer or failure of a pending status request; the listener
    emits at most once for a hash, and only while subscribed), [tracker_step]
    the relation it generates, and the properties are invariants of the
    states reachable from [tracker_init] ([rtc] of stdpp).  JavaScript's
    promise keeps the first [resolve]; the model keeps the first in
    [winner].  Beside the invariants: the well-formedness [tracker_wf]
    of every reachable state, termination by the measure
    [tracker_measure], and what the race does when no event is enabled
    any more ([tracker_terminal]). *)
From S2P Require Import Prelude Config Ledger.

Inductive Branch := BEvent | BPoll.

#[export] Instance Branch_eq_dec : EqDecision Branch.
Proof. solve_decision. Defined.

(** What the race does, in order: a status request, a [listener.close()],
    a [resolve(response)] call (effective or not). *)
Inductive TEffect :=
  | EFetch (b : Branch)
  | EClose
  | EResolve (b : Branch) (st : TransactionStatus).

Record TState := mkT {
  listening : bool;          (* the subscription delivers notifications *)
  notified : bool;           (* the listener has emitted for the hash *)
  timer_armed : bool;        (* the 1000 ms [setTimeout] has not fired *)
  inflight : list Branch;    (* callbacks suspended on [getTransactionStatus] *)
  winner : option (Branch * TransactionStatus);   (* the promise's value *)
  trace : list TEffect       (* effects, most recent first *)
}.

(** The environment's next event. *)
Inductive TInput :=
  | INotify                              (* the listener emits for the hash *)
  | ITimer                               (* the 1000 ms timer fires *)
  | IRespond (b : Branch) (st : TransactionStatus)   (* a status request answers *)
  | IFail (b : Branch).                  (* a status request fails: the callback rejects *)

(** Right after [await listener.open()] and the executor: subscribed, the
    timer armed. *)
Definition tracker_init : TState := mkT true false true [] None [].

(** [resolve(st)]: only the first call settles the promise. *)
Definition resolve_once (w : option (Branch * TransactionStatus)) (b : Branch)
    (st : TransactionStatus) : option (Branch * TransactionStatus) :=
  match w with
  | None => Some (b, st)
  | Some _ => w
  end.

(** Remove one pending request of branch [b], if there is one. *)
Fixpoint take_inflight (b : Branch) (l : list Branch) : option (list Branch) :=
  match l with
  | [] => None
  | b' :: l' => if decide (b = b') then Some l' else (fun r => b' :: r) <$> take_inflight b l'
  end.

(** The callbacks' code after their [await]: the event callback closes
    and resolves unconditionally; the poll closes and resolves only when
    the code is not ['Success']. *)
Definition after_fetch (s : TState) (rest : list Branch) (b : Branch)
    (st : TransactionStatus) : TState :=
  match b with
  | BEvent =>
      mkT false (notified s) (timer_armed s) rest (resolve_once (winner s) BEvent st)
          (EResolve BEvent st :: EClose :: trace s)
  | BPoll =>
      if ts_code st === code_Success
      then mkT (listening s) (notified s) (timer_armed s) rest (winner s) (trace s)
      else mkT false (notified s) (timer_armed s) rest (resolve_once (winner s) BPoll st)
               (EResolve BPoll st :: EClose :: trace s)
  end.

Definition tstep (s : TState) (i : TInput) : option TState :=
  match i with
  | INotify =>
      if listening s && negb (notified s)
      then Some (mkT true true (timer_armed s) (BEvent :: inflight s) (winner s)
                     (EFetch BEvent :: trace s))
      else None
  | ITimer =>
      if timer_armed s
      then Some (mkT (listening s) (notified s) false (BPoll :: inflight s) (winner s)
                     (EFetch BPoll :: trace s))
      else None
  | IRespond b st =>
      rest ← take_inflight b (inflight s); Some (after_fetch s rest b st)
  | IFail b =>
      rest ← take_inflight b (inflight s);
      Some (mkT (listening s) (notified s) (timer_armed s) rest (winner s) (trace s))
  end.

Definition tracker_step (s s' : TState) : Prop := exists i, tstep s i = Some s'.

Definition tracker_reachable (s : TState) : Prop := rtc tracker_step tracker_init s.

(** Run a schedule of events; [None] when one is not enabled. *)
Fixpoint run_schedule (s : TState) (sched : list TInput) : option TState :=
  match sched with
  | [] => Some s
  | i :: sched' => s' ← tstep s i; run_schedule s' sched'
  end.

(** The outcome the caller awaits: the value of the promise. *)
Definition tracker_outcome (s : TState) : option TransactionStatus := snd <$> winner s.

(** ** Lemmas on the step function *)

Lemma run_schedule_rtc s sched s' :
  run_schedule s sched = Some s' -> rtc tracker_step s s'.
Proof.
  revert s. induction sched as [|i sched IH]; simpl; intros s H.
  - simplify_eq. constructor.
  - destruct (tstep s i) as [s1|] eqn:E; simpl in H; [|discriminate].
    eapply rtc_l; [exists i; exact E | by apply IH].
Qed.

Lemma take_inflight_length b l r :
  take_inflight b l = Some r -> length l = S (length r).
Proof.
  revert r. induction l as [|b' l IH]; simpl; intros r H; [discriminate|].
  case_decide; simplify_eq; [done|].
  destruct (take_inflight b l) eqn:E; simpl in H; simplify_eq. simpl. by rewrite (IH _ eq_refl).
Qed.

(** Case analysis on one step. *)
Ltac tstep_cases H :=
  unfold tstep, mbind, option_bind in H; repeat (case_match; simpl in H; try discriminate); simplify_eq;
  try (unfold after_fetch; repeat case_match; simplify_eq; simpl).

Lemma tstep_winner_keep s i s' w :
  tstep s i = Some s' -> winner s = Some w -> winner s' = Some w.
Proof. intros H Hw. tstep_cases H; rewrite ?Hw; done. Qed.

Lemma rtc_winner_keep s s' w :
  rtc tracker_step s s' -> winner s = Some w -> winner s' = Some w.
Proof.
  induction 1 as [|s1 s2 s3 [i Hi] _ IH]; [done|].
  intros Hw. apply IH. by eapply tstep_winner_keep.
Qed.

(** ** Invariants of the race *)

(** Induction on the steps of the race. *)
Lemma tracker_rtc_invariant (P : TState -> Prop) :
  (forall s i s', tstep s i = Some s' -> P s -> P s') ->
  forall s s', rtc tracker_step s s' -> P s -> P s'.
Proof. intros Hstep. apply rtc_invariant. intros s s' [i Hi]. eauto. Qed.

Definition poll_wins_only_on_failure (s : TState) : Prop :=
  forall st, winner s = Some (BPoll, st) -> ts_code st <> code_Success.

Lemma tstep_poll_wins_only_on_failure s i s' :
  tstep s i = Some s' -> poll_wins_only_on_failure s -> poll_wins_only_on_failure s'.
Proof.
  unfold poll_wins_only_on_failure. intros H Hinv st0 Hw.
  tstep_cases H; try by eauto.
  unfold after_fetch in Hw.
  destruct b; [|destruct (String.eqb_spec (ts_code st) code_Success)]; simpl in Hw;
    unfold resolve_once in Hw; destruct (winner s) eqn:E; simplify_eq; eauto.
Qed.

(** C6: The poll branch never resolves with a ['Success'] status: in every
    state of the race, a successful outcome was delivered by the event
    branch. *)
Theorem tracker_success_from_event s st :
  tracker_reachable s -> winner s = Some (BPoll, st) -> ts_code st <> code_Success.
Proof.
  intros Hr. revert st. change (poll_wins_only_on_failure s).
  eapply tracker_rtc_invariant; [exact tstep_poll_wins_only_on_failure | exact Hr |].
  unfold poll_wins_only_on_failure. simpl. discriminate.
Qed.

Fixpoint close_count (tr : list TEffect) : nat :=
  match tr with
  | [] => 0
  | EClose :: tr' => S (close_count tr')
  | _ :: tr' => close_count tr'
  end.

(** Closes done, plus the closes still possible: one per pending request,
    one for the notification not yet delivered, one for the armed timer. *)
Definition close_budget (s : TState) : nat :=
  close_count (trace s) + length (inflight s)
  + (if notified s then 0 else 1) + (if timer_armed s then 1 else 0).

Lemma after_fetch_budget s rest b st :
  close_budget (after_fetch s rest b st)
  <= S (close_count (trace s) + length rest
        + (if notified s then 0 else 1) + (if timer_armed s then 1 else 0)).
Proof.
  unfold close_budget, after_fetch.
  destruct b; [|destruct (ts_code st === code_Success)]; simpl; lia.
Qed.

Lemma tstep_close_budget s i s' : tstep s i = Some s' -> close_budget s' <= close_budget s.
Proof.
  intros H. destruct i as [| |b st|b]; cbn -[after_fetch] in H.
  - destruct (listening s && negb (notified s)) eqn:E; simplify_eq.
    apply andb_prop in E as [_ E]. unfold close_budget. simpl.
    destruct (notified s); simpl in *; [discriminate|lia].
  - destruct (timer_armed s) eqn:E; simplify_eq. unfold close_budget. simpl. rewrite E. lia.
  - destruct (take_inflight b (inflight s)) as [rest|] eqn:E; cbn -[after_fetch] in H;
      simplify_eq.
    apply take_inflight_length in E. pose proof (after_fetch_budget s rest b st).
    unfold close_budget at 2. lia.
  - destruct (take_inflight b (inflight s)) as [rest|] eqn:E; simpl in H; simplify_eq.
    apply take_inflight_length in E. unfold close_budget. simpl. lia.
Qed.

(** C11: [listener.close()] runs at most twice in a race, and twice is
    reachable: the event callback and the poll both close when the status
    they fetch is a failure; the specification asks for exactly one
    teardown. *)
Theorem tracker_close_at_most_twice :
  (forall s, tracker_reachable s -> close_count (trace s) <= 2) /\
  (exists s, tracker_reachable s /\ close_count (trace s) = 2).
Proof.
  split.
  - intros s Hr. enough (close_budget s <= 2) by (unfold close_budget in *; lia).
    eapply (tracker_rtc_invariant (fun s => close_budget s <= 2)); [|exact Hr|done].
    intros s1 i s2 Hi H1. pose proof (tstep_close_budget _ _ _ Hi). lia.
  - set (bad := mkStatus "failed" "Failure_Core_Insufficient_Balance" "H").
    destruct (run_schedule tracker_init [INotify; ITimer; IRespond BEvent bad; IRespond BPoll bad])
      as [s|] eqn:E; [|discriminate].
    exists s. split; [by eapply run_schedule_rtc|]. by vm_compute in E; simplify_eq.
Qed.

(** ** Liveness of the race *)

(** C12: The poll is not cancelled when the event branch wins: there is a
    run in which the race has resolved with the event's status and the
    1000 ms timer still fires and requests the status again. *)
Theorem tracker_poll_after_resolution st :
  exists s, tracker_reachable s /\
    trace s = [EFetch BPoll; EResolve BEvent st; EClose; EFetch BEvent] /\
    winner s = Some (BEvent, st).
Proof.
  destruct (run_schedule tracker_init [INotify; IRespond BEvent st; ITimer]) as [s|] eqn:E;
    [|discriminate].
  exists s. split; [by eapply run_schedule_rtc|]. simpl in E. by simplify_eq.
Qed.

(** The steps that do not need the listener's notification. *)
Definition step_without_event (s s' : TState) : Prop :=
  exists i, i <> INotify /\ tstep s i = Some s'.

(** A race whose timer has fired, with no pending request, is stuck until
    a notification arrives. *)
Lemma tracker_stuck_without_event s s' :
  timer_armed s = false -> inflight s = [] ->
  rtc step_without_event s s' -> s' = s.
Proof.
  intros Ht Hi Hr. induction Hr as [|s1 s2 s3 [i [Hne Hi1]] _ IH]; [done|].
  destruct i; simpl in Hi1; [done| |..]; rewrite ?Ht, ?Hi in Hi1; discriminate.
Qed.

(** C9: If the listener's notification never arrives (the confirmation
    or the bonded-added event happened before the subscription, or was
    lost) and the poll reads a ['Success'] status, the race never
    resolves: after the timer fires and its request answers with that
    status, the promise is pending and stays pending whatever else
    happens without a notification; the promise of
    [requestEscrowWithSSS] or [cosignedEscrowWithSSS] never settles,
    contrary to the specification's bound on the wait. *)
Theorem tracker_hangs_without_event st :
  ts_code st = code_Success ->
  exists s, run_schedule tracker_init [ITimer; IRespond BPoll st] = Some s /\
    tracker_outcome s = None /\
    forall s', rtc step_without_event s s' -> tracker_outcome s' = None.
Proof.
  intros Hst. exists (mkT true false false [] None [EFetch BPoll]).
  split; [|split; [done|]].
  - simpl. unfold after_fetch. by rewrite Hst.
  - intros s' Hr. apply tracker_stuck_without_event in Hr; [by subst|done|done].
Qed.

(** C13: While the timer is armed, a failure status bounds the wait: the
    timer firing and its request answering with a code other than
    ['Success'] resolve the race. *)
Theorem tracker_failure_resolves s st :
  timer_armed s = true -> ts_code st <> code_Success ->
  exists s', run_schedule s [ITimer; IRespond BPoll st] = Some s' /\
    is_Some (tracker_outcome s').
Proof.
  intros Ht Hst. simpl. rewrite Ht. simpl.
  unfold after_fetch. destruct (String.eqb_spec (ts_code st) code_Success); [done|].
  eexists. split; [reflexivity|]. unfold tracker_outcome, resolve_once. simpl.
  destruct (winner s); simpl; eauto.
Qed.

(** ** Well-formedness and termination of the race *)

(** The shape of every state of the race: each callback has at most one
    pending status request, the event callback's only after the
    notification and the poll's only after the timer fired, and the
    listener is closed only by a callback that settled the promise. *)
Definition tracker_wf (s : TState) : Prop :=
  NoDup (inflight s) /\
  (BEvent ∈ inflight s -> notified s = true) /\
  (BPoll ∈ inflight s -> timer_armed s = false) /\
  (listening s = false -> is_Some (winner s)).

#[export] Instance tracker_wf_dec s : Decision (tracker_wf s).
Proof. unfold tracker_wf. apply _. Defined.

(** What the environment can still make happen: a notification, the
    timer firing, and one answer per pending request. *)
Definition tracker_measure (s : TState) : nat :=
  length (inflight s) + (if notified s then 0 else 2) + (if timer_armed s then 2 else 0).

(** No event is enabled any more. *)
Definition tracker_terminal (s : TState) : Prop := forall i, tstep s i = None.

(** The steps in which no status request fails. *)
Definition step_without_failure (s s' : TState) : Prop :=
  exists i, (forall b, i <> IFail b) /\ tstep s i = Some s'.

Lemma take_inflight_perm b l r : take_inflight b l = Some r -> l ≡ₚ b :: r.
Proof.
  revert r. induction l as [|b' l IH]; simpl; intros r H; [discriminate|].
  case_decide; simplify_eq; [done|].
  destruct (take_inflight b l) eqn:E; simpl in H; simplify_eq.
  rewrite (IH _ eq_refl). apply perm_swap.
Qed.

Lemma take_inflight_head b l : take_inflight b (b :: l) = Some l.
Proof. simpl. by case_decide. Qed.

(** A callback's continuation keeps the triggers and leaves [rest]
    pending; it closes the listener only when it settles the promise. *)
Lemma after_fetch_fields s rest b st :
  notified (after_fetch s rest b st) = notified s /\
  timer_armed (after_fetch s rest b st) = timer_armed s /\
  inflight (after_fetch s rest b st) = rest /\
  (listening (after_fetch s rest b st) = false ->
     listening s = false \/ is_Some (winner (after_fetch s rest b st))).
Proof.
  unfold after_fetch, resolve_once.
  destruct b; [|case_match]; simpl; repeat split; auto; case_match; eauto.
Qed.

(** One step of the race, field by field. *)
Lemma tstep_inv s i s' :
  tstep s i = Some s' ->
  (i = INotify /\ listening s = true /\ notified s = false /\
     s' = mkT true true (timer_armed s) (BEvent :: inflight s) (winner s) (EFetch BEvent :: trace s)) \/
  (i = ITimer /\ timer_armed s = true /\
     s' = mkT (listening s) (notified s) false (BPoll :: inflight s) (winner s) (EFetch BPoll :: trace s)) \/
  (exists b st rest, i = IRespond b st /\ take_inflight b (inflight s) = Some rest /\
     s' = after_fetch s rest b st) \/
  (exists b rest, i = IFail b /\ take_inflight b (inflight s) = Some rest /\
     s' = mkT (listening s) (notified s) (timer_armed s) rest (winner s) (trace s)).
Proof.
  destruct i as [| |b st|b]; cbn -[after_fetch]; intros H.
  - destruct (listening s) eqn:El, (notified s) eqn:En; simpl in H; simplify_eq. left. eauto.
  - destruct (timer_armed s) eqn:Et; simplify_eq. right; left. eauto.
  - destruct (take_inflight b (inflight s)) eqn:E; simpl in H; simplify_eq. eauto 10.
  - destruct (take_inflight b (inflight s)) eqn:E; simpl in H; simplify_eq. eauto 10.
Qed.

Lemma tstep_wf s i s' : tstep s i = Some s' -> tracker_wf s -> tracker_wf s'.
Proof.
  intros H (Hnd & He & Hp & Hl).
  destruct (tstep_inv _ _ _ H) as
    [(-> & ? & ? & ->) | [(-> & ? & ->) | [(b & st & rest & -> & Ht & ->) | (b & rest & -> & Ht & ->)]]].
  - refine (conj _ (conj _ (conj _ _))); simpl; [| done | | discriminate].
    + constructor; [|done]. intros ?%He. congruence.
    + intros [?|?]%elem_of_cons; [discriminate | by apply Hp].
  - refine (conj _ (conj _ (conj _ _))); simpl; auto.
    + constructor; [|done]. intros ?%Hp. congruence.
    + intros [?|?]%elem_of_cons; [discriminate | by apply He].
  - apply take_inflight_perm in Ht. unfold tracker_wf.
    destruct (after_fetch_fields s rest b st) as (-> & -> & -> & Hl').
    rewrite Ht in Hnd, He, Hp. apply NoDup_cons in Hnd as [_ Hnd].
    repeat split; [done| intros; apply He; set_solver | intros; apply Hp; set_solver |].
    intros [Hs|Hs]%Hl'; [|done]. destruct (Hl Hs) as [w Hw].
    eexists. by eapply tstep_winner_keep.
  - apply take_inflight_perm in Ht. rewrite Ht in Hnd, He, Hp.
    apply NoDup_cons in Hnd as [_ Hnd]. repeat split; simpl; auto; set_solver.
Qed.

(** ** Abstract specification: the race of the specification

    The caller relies on a race (specification, section 4.2) that
    records whether the notification arrived and is settled once: by the
    event branch, only after the notification, with the status it read,
    or by the poll, only with a status whose code is not ['Success']. *)
Record ARace := mkARace { a_notified : bool; a_winner : option (Branch * TransactionStatus) }.

Inductive spec_step : ARace -> ARace -> Prop :=
  | spec_notify w : spec_step (mkARace false w) (mkARace true w)
  | spec_settle_event st : spec_step (mkARace true None) (mkARace true (Some (BEvent, st)))
  | spec_settle_poll n st :
      ts_code st <> code_Success -> spec_step (mkARace n None) (mkARace n (Some (BPoll, st))).

(** The abstraction of a state of the race. *)
Definition abstract_race (s : TState) : ARace := mkARace (notified s) (winner s).

(** A pending event callback was triggered by the notification. *)
Lemma tstep_event_notified s i s' :
  tstep s i = Some s' ->
  (BEvent ∈ inflight s -> notified s = true) -> BEvent ∈ inflight s' -> notified s' = true.
Proof.
  intros H Hinv.
  destruct (tstep_inv _ _ _ H) as
    [(-> & ? & ? & ->) | [(-> & ? & ->) | [(b & st & rest & -> & Ht & ->) | (b & rest & -> & Ht & ->)]]];
    simpl; [done | intros [?|?]%elem_of_cons; [discriminate | auto] | |];
    apply take_inflight_perm in Ht; intros Hin.
  - destruct (after_fetch_fields s rest b st) as (En & _ & Ei & _).
    rewrite Ei in Hin. rewrite En. apply Hinv. rewrite Ht. set_solver.
  - apply Hinv. rewrite Ht. set_solver.
Qed.

(** C5: Refinement of the specification's race: from every reachable
    state, each step of the code's race either leaves the abstract race
    unchanged or is a step of the specification: the notification, the
    event branch settling after the notification, or the poll settling
    with a non-['Success'] status; a settled race is never re-settled. *)
Theorem tracker_refines_spec s s' :
  tracker_reachable s -> tracker_step s s' ->
  abstract_race s' = abstract_race s \/ spec_step (abstract_race s) (abstract_race s').
Proof.
  intros Hr [i H].
  assert (BEvent ∈ inflight s -> notified s = true) as Hev.
  { eapply (tracker_rtc_invariant (fun s => BEvent ∈ inflight s -> notified s = true));
      [exact tstep_event_notified | exact Hr | simpl; by intros ?%elem_of_nil]. }
  unfold abstract_race.
  destruct (tstep_inv _ _ _ H) as
    [(-> & ? & Hn & ->) | [(-> & ? & ->) | [(b & st & rest & -> & Ht & ->) | (b & rest & -> & Ht & ->)]]];
    simpl; [rewrite Hn; right; constructor | by left | | by left].
  apply take_inflight_perm in Ht. unfold after_fetch, resolve_once.
  destruct b; [|destruct (String.eqb_spec (ts_code st) code_Success)]; simpl; try by left.
  - destruct (winner s); [by left|]. right.
    rewrite Hev by (rewrite Ht; set_solver). constructor.
  - destruct (winner s); [by left|]. right. by constructor.
Qed.

Lemma tstep_measure s i s' : tstep s i = Some s' -> tracker_measure s' < tracker_measure s.
Proof.
  intros H. unfold tracker_measure.
  destruct (tstep_inv _ _ _ H) as
    [(-> & ? & Hn & ->) | [(-> & Ht & ->) | [(b & st & rest & -> & Ht & ->) | (b & rest & -> & Ht & ->)]]];
    simpl.
  - rewrite Hn. lia.
  - rewrite Ht. lia.
  - apply take_inflight_length in Ht.
    destruct (after_fetch_fields s rest b st) as (-> & -> & -> & _). lia.
  - apply take_inflight_length in Ht. lia.
Qed.

Lemma run_schedule_measure s sched s' :
  run_schedule s sched = Some s' -> tracker_measure s' + length sched <= tracker_measure s.
Proof.
  revert s. induction sched as [|i sched IH]; simpl; intros s H; [simplify_eq; lia|].
  destruct (tstep s i) as [s1|] eqn:E; simpl in H; [|discriminate].
  pose proof (tstep_measure _ _ _ E). specialize (IH _ H). lia.
Qed.

Lemma run_schedule_without_failure s sched s' :
  run_schedule s sched = Some s' -> Forall (fun i => forall b, i <> IFail b) sched ->
  rtc step_without_failure s s'.
Proof.
  revert s. induction sched as [|i sched IH]; simpl; intros s H Hf.
  - simplify_eq. constructor.
  - apply Forall_cons in Hf as [Hi Hf].
    destruct (tstep s i) as [s1|] eqn:E; simpl in H; [|discriminate].
    eapply rtc_l; [exists i; split; [exact Hi | exact E] | by apply IH].
Qed.

(** A state with a pending request is not terminal: its answer is enabled. *)
Lemma tracker_terminal_inflight s : tracker_terminal s -> inflight s = [].
Proof.
  intros Ht. destruct (inflight s) as [|b l] eqn:E; [done|].
  specialize (Ht (IRespond b (mkStatus "" "" ""))). simpl in Ht.
  rewrite E, take_inflight_head in Ht. discriminate.
Qed.

(** Without failing requests, a delivered notification stays pending
    until the promise is settled. *)
Lemma step_without_failure_event s s' :
  step_without_failure s s' ->
  (notified s = true -> BEvent ∈ inflight s \/ is_Some (winner s)) ->
  notified s' = true -> BEvent ∈ inflight s' \/ is_Some (winner s').
Proof.
  intros [i [Hi H]] Hinv Hn'.
  destruct (tstep_inv _ _ _ H) as
    [(-> & ? & ? & ->) | [(-> & ? & ->) | [(b & st & rest & -> & Ht & ->) | (b & rest & -> & _)]]].
  - left. simpl. by apply elem_of_cons; left.
  - simpl in *. destruct (Hinv Hn') as [?|?]; [left; set_solver | by right].
  - destruct (after_fetch_fields s rest b st) as (En & _ & Er & _). rewrite En in Hn'.
    apply take_inflight_perm in Ht.
    destruct b.
    + right. unfold after_fetch, resolve_once. simpl. case_match; eauto.
    + rewrite Er. destruct (Hinv Hn') as [Hin|[w Hw]].
      * left. rewrite Ht in Hin. set_solver.
      * right. exists w. by eapply (tstep_winner_keep s (IRespond BPoll st)).
  - by destruct (Hi b).
Qed.

(** C28: Well-formedness of the race: every reachable state satisfies
    [tracker_wf]: at most one pending status request per callback, each
    only after its trigger, and a closed listener only with a settled
    promise. *)
Theorem tracker_reachable_wf s : tracker_reachable s -> tracker_wf s.
Proof.
  intros Hr. eapply tracker_rtc_invariant; [exact tstep_wf | exact Hr |].
  apply (bool_decide_unpack _). by vm_compute.
Qed.

(** C29: Termination of the race: there is no infinite sequence of
    steps, whatever the environment does; the notification, the timer
    and each pending request can each happen once. *)
Theorem tracker_terminates : well_founded (fun s' s => tracker_step s s').
Proof.
  apply (well_founded_lt_compat _ tracker_measure).
  intros s' s [i H]. by eapply tstep_measure.
Qed.

(** C30: Bound on a race: from the start, at most four events are
    accepted (the notification, the timer and the two status answers),
    and four are. *)
Theorem tracker_at_most_four_events :
  (forall sched s, run_schedule tracker_init sched = Some s -> length sched <= 4) /\
  (exists sched s, run_schedule tracker_init sched = Some s /\ length sched = 4).
Proof.
  split.
  - intros sched s H%run_schedule_measure.
    assert (tracker_measure tracker_init = 4) by reflexivity. lia.
  - eexists [INotify; ITimer; IRespond BEvent (mkStatus "" "" ""); IRespond BPoll (mkStatus "" "" "")].
    eexists. split; [vm_compute; reflexivity | done].
Qed.

(** C31: Liveness when the notification arrives: if the listener emits
    and no status request fails, every run ends with the promise settled,
    whatever the order of the timer and the answers. *)
Theorem tracker_event_resolves s :
  rtc step_without_failure tracker_init s -> tracker_terminal s -> notified s = true ->
  is_Some (tracker_outcome s).
Proof.
  intros Hr Ht Hn. unfold tracker_outcome.
  assert (notified s = true -> BEvent ∈ inflight s \/ is_Some (winner s)) as Hinv.
  { eapply (rtc_invariant _ (fun s => notified s = true -> BEvent ∈ inflight s \/ is_Some (winner s)));
      [exact step_without_failure_event | exact Hr | discriminate]. }
  destruct (Hinv Hn) as [Hin|Hw]; [|by apply fmap_is_Some].
  rewrite (tracker_terminal_inflight _ Ht) in Hin. by apply elem_of_nil in Hin.
Qed.

(** C37: A race whose two status requests fail never settles: the
    callbacks reject inside the subscription and the timer, nothing else
    can happen, the promise stays pending and the listener stays open;
    the specification asks for an [Undetermined] outcome when the node
    cannot be reached. *)
Theorem tracker_hangs_on_failed_requests :
  exists s, tracker_reachable s /\ tracker_terminal s /\ tracker_outcome s = None /\
    listening s = true.
Proof.
  destruct (run_schedule tracker_init [INotify; ITimer; IFail BEvent; IFail BPoll]) as [s|] eqn:E;
    [|discriminate].
  exists s. split; [by eapply run_schedule_rtc|]. simpl in E. simplify_eq.
  split; [by intros [| |b st|b]|]. done.
Qed.

(** ** Concrete runs *)

Definition status_ok : TransactionStatus := mkStatus "partial" "Success" "H1".
Definition status_bad : TransactionStatus := mkStatus "failed" "Failure_Core_Insufficient_Balance" "H1".

Lemma tracker_success_from_event_witness :
  tracker_reachable (mkT false false false [] (Some (BPoll, status_bad))
                       [EResolve BPoll status_bad; EClose; EFetch BPoll]) /\
  ts_code status_bad <> code_Success.
Proof.
  split.
  - apply (run_schedule_rtc _ [ITimer; IRespond BPoll status_bad]). vm_compute. reflexivity.
  - apply (tracker_success_from_event _ _ (run_schedule_rtc tracker_init [ITimer; IRespond BPoll status_bad] _ eq_refl)).
    reflexivity.
Defined.

Lemma tracker_hangs_without_event_witness :
  exists s, run_schedule tracker_init [ITimer; IRespond BPoll status_ok] = Some s /\
    tracker_outcome s = None /\
    forall s', rtc step_without_event s s' -> tracker_outcome s' = None.
Proof. apply (tracker_hangs_without_event status_ok). reflexivity. Defined.

Lemma tracker_failure_resolves_witness :
  exists s', run_schedule tracker_init [ITimer; IRespond BPoll status_bad] = Some s' /\
    is_Some (tracker_outcome s').
Proof. apply tracker_failure_resolves; [reflexivity | discriminate]. Defined.

Lemma tracker_refines_spec_witness :
  tracker_reachable tracker_init /\
  (abstract_race (mkT true true true [BEvent] None [EFetch BEvent]) = abstract_race tracker_init \/
   spec_step (abstract_race tracker_init) (abstract_race (mkT true true true [BEvent] None [EFetch BEvent]))).
Proof.
  split; [apply rtc_refl|].
  apply tracker_refines_spec; [apply rtc_refl | exists INotify; reflexivity].
Defined.

Lemma tracker_close_at_most_twice_witness : close_count (trace tracker_init) <= 2.
Proof. apply (proj1 tracker_close_at_most_twice). apply rtc_refl. Defined.

Definition race_settled : TState :=
  mkT false true false [] (Some (BEvent, status_ok))
    [EResolve BEvent status_ok; EClose; EFetch BEvent; EFetch BPoll].

Definition race_two_pending : TState :=
  mkT true true false [BPoll; BEvent] None [EFetch BPoll; EFetch BEvent].

Lemma tracker_reachable_wf_witness :
  tracker_reachable race_two_pending /\ tracker_wf race_two_pending.
Proof.
  assert (Hr : tracker_reachable race_two_pending)
    by (apply (run_schedule_rtc _ [INotify; ITimer]); reflexivity).
  split; [exact Hr | exact (tracker_reachable_wf _ Hr)].
Defined.

Lemma tracker_at_most_four_events_witness :
  is_Some (run_schedule tracker_init [INotify; ITimer; IRespond BPoll status_ok]) /\
  length [INotify; ITimer; IRespond BPoll status_ok] <= 4.
Proof.
  split; [eexists; reflexivity|].
  eapply (proj1 tracker_at_most_four_events). vm_compute. reflexivity.
Defined.

Lemma tracker_event_resolves_witness :
  rtc step_without_failure tracker_init race_settled /\ tracker_terminal race_settled /\
  notified race_settled = true /\ is_Some (tracker_outcome race_settled).
Proof.
  assert (Hr : rtc step_without_failure tracker_init race_settled).
  { apply (run_schedule_without_failure _
      [ITimer; INotify; IRespond BPoll status_ok; IRespond BEvent status_ok]);
      [reflexivity | repeat constructor; intros b; discriminate]. }
  assert (Ht : tracker_terminal race_settled) by (intros [| |b st|b]; reflexivity).
  split; [exact Hr | split; [exact Ht | split; [reflexivity |]]].
  exact (tracker_event_resolves _ Hr Ht eq_refl).
Defined.
