(* ===== verification/Orchestrator.v ===== *)
(** The Escrow Orchestrator: [requestEscrowWithSSS] (lines 34-200 of
    [utils/requestEscrowWithSSS.ts]) and [cosignedEscrowWithSSS] (lines
    18-74 of [utils/cosignedEscrowWithSSS.ts]) as sequences of effects.

    A flow is a computation of the small writer/error monad [Flow]: it
    returns a [js_result] (a value, a thrown error, or a promise that
    never settles) and appends the effects it performs to a trace: the
    signature requests to SSS, the [setTimeout] waits, the announcements
    and the listener subscriptions.  The external parts are interfaces:
    [SignerGateway] (window.SSS), [Announcer] (the [announce*] calls of
    the transaction repository) and [ConfirmationTracker] (the
    event/poll race of [Tracker.v], of which [race_tracker] is an
    instance).  The node is the [Node] of [Ledger.v], [None] standing for
    [connectNode] returning [''].  [getChainInfo] (line 52) is taken to
    answer with [nd_height]; [setMaxFeeForAggregate], the deadlines and
    the [console.log] calls are not modelled: they do not affect the
    flow. *)
From S2P Require Import Prelude Config JsValue Ledger Builder Tracker.

Inductive SignRequest :=
  | SignBundle (inner : list InnerTransaction)
  | SignLock (lock : HashLockTransaction).

Inductive AnnounceKind := AnnounceLock | AnnounceBonded | AnnounceCosignature.

(** [listener.confirmed] or [listener.aggregateBondedAdded]. *)
Inductive Watch := WConfirmed | WBondedAdded.

Inductive Effect :=
  | ESign (r : SignRequest)                 (* SSS.setTransaction + requestSign *)
  | ESignCosig (payload_hash : string)      (* SSS.setTransactionByPayload + requestSignCosignatureTransaction *)
  | EWait (ms : Z)                          (* await a setTimeout *)
  | EAnnounce (k : AnnounceKind) (h : string)
  | EListen (w : Watch) (a : Address) (h : string).   (* listener.open + subscribe + race *)

(** [window.SSS]: a signature request gives the signed transaction's
    hash (or the cosigned parent's hash), rejects, or never answers. *)
Class SignerGateway := {
  requestSign : SignRequest -> js_result string;
  requestSignCosignature : AggregateTransaction -> js_result string
}.

Class Announcer := {
  announce : AnnounceKind -> string -> js_result unit
}.

(** The outcome of one race of [Tracker.v] on a hash. *)
Class ConfirmationTracker := {
  confirm : Watch -> Address -> string -> js_result TransactionStatus
}.

(** ** The flow monad *)

Definition Flow (A : Type) : Type := list Effect -> js_result A * list Effect.

Definition fret {A} (a : A) : Flow A := fun tr => (Returned a, tr).

Definition fbind {A B} (m : Flow A) (k : A -> Flow B) : Flow B :=
  fun tr => match m tr with
            | (Returned a, tr') => k a tr'
            | (Thrown e, tr') => (Thrown e, tr')
            | (Hangs, tr') => (Hangs, tr')
            end.

(** An awaited call whose effect is not traced. *)
Definition flift {A} (r : js_result A) : Flow A := fun tr => (r, tr).

Definition emit (e : Effect) : Flow unit := fun tr => (Returned tt, tr ++ [e]).

Declare Scope flow_scope.
Delimit Scope flow_scope with flow.
Notation "x <~ m ;; k" := (fbind m (fun x => k))
  (at level 100, m at next level, right associativity) : flow_scope.
Notation "m ;;; k" := (fbind m (fun _ => k))
  (at level 100, right associativity) : flow_scope.
Local Open Scope flow_scope.

Section Flows.
Context `{SignerGateway} `{Announcer} `{ConfirmationTracker}.
Variable cfg : Config.
Variable fetchAdminAddress : js_result Address.   (* axios.get('/api/fetch-address') *)

  (** [requestEscrowWithSSS], lines 34-200. *)
Definition requestEscrowWithSSS (conn : option Node) (clientAddress targetAddress : Address)
      (mosaicId : string) (amount price : Z) (message : string)
      : Flow (option TransactionStatus) :=
    match conn with
    | None => fret None                                              (* line 43 *)
    | Some nd =>
        blockTs <~ flift (getBlockTimestamp nd (nd_height nd)) ;;       (* lines 52-54 *)
        targetAccountInfo <~ flift (getAccountInfo nd targetAddress) ;;
        clinetAccountInfo <~ flift (getAccountInfo nd clientAddress) ;;
        adminAddress <~ flift fetchAdminAddress ;;
        inner <~ flift (build_inner cfg clinetAccountInfo targetAccountInfo adminAddress
                          blockTs mosaicId amount price message) ;;
        emit (ESign (SignBundle inner)) ;;;                             (* lines 119-122 *)
        signedAggregateHash <~ flift (requestSign (SignBundle inner)) ;;
        hashLockTx <~ flift (build_hashLock cfg signedAggregateHash) ;;
        emit (EWait 1000) ;;;                                           (* lines 135-140 *)
        emit (ESign (SignLock hashLockTx)) ;;;
        signedHashLockHash <~ flift (requestSign (SignLock hashLockTx)) ;;
        emit (EAnnounce AnnounceLock signedHashLockHash) ;;;             (* line 144 *)
        flift (announce AnnounceLock signedHashLockHash) ;;;
        emit (EListen WConfirmed (ai_address clinetAccountInfo) signedHashLockHash) ;;;
        hashLockTransactionStatus <~
          flift (confirm WConfirmed (ai_address clinetAccountInfo) signedHashLockHash) ;;
        emit (EWait 5000) ;;;                                           (* lines 169-174 *)
        emit (EAnnounce AnnounceBonded signedAggregateHash) ;;;          (* line 176 *)
        flift (announce AnnounceBonded signedAggregateHash) ;;;
        emit (EListen WBondedAdded (ai_address clinetAccountInfo) signedAggregateHash) ;;;
        aggregateBondedTransactionStatus <~
          flift (confirm WBondedAdded (ai_address clinetAccountInfo) signedAggregateHash) ;;
        fret (Some aggregateBondedTransactionStatus)                    (* line 199 *)
    end.

  (** [cosignedEscrowWithSSS], lines 18-74. *)
Definition cosignedEscrowWithSSS (conn : option Node) (clientAddress : Address) (hash : string)
      : Flow (option TransactionStatus) :=
    match conn with
    | None => fret None                                              (* line 23 *)
    | Some nd =>
        clinetAccountInfo <~ flift (getAccountInfo nd clientAddress) ;;
        txInfo <~ flift (getTransaction nd hash Partial) ;;            (* line 38 *)
        emit (ESignCosig (ti_hash (agg_info txInfo))) ;;;               (* lines 39-44 *)
        parentHash <~ flift (requestSignCosignature txInfo) ;;
        emit (EAnnounce AnnounceCosignature parentHash) ;;;              (* line 46 *)
        flift (announce AnnounceCosignature parentHash) ;;;
        emit (EListen WConfirmed (ai_address clinetAccountInfo) parentHash) ;;;
        st <~ flift (confirm WConfirmed (ai_address clinetAccountInfo) parentHash) ;;
        fret (Some st)                                                (* line 73 *)
    end.

  (** [escrowRequestWithSSS], lines 29-178 of [utils/escrowRequestWithSSS.ts],
      the flow [pages/escrow-request] calls: the same protocol with the
      older builder and hash lock, and no wait between the lock's race and
      the bundle's announcement.  Its three awaited network queries of
      lines 49-51 (epoch adjustment, generation hash, network type) are
      taken to succeed. *)
Definition escrowRequestWithSSS (conn : option Node) (clientAddress targetAddress : Address)
      (mosaicId : string) (amount price : Z) (message : string)
      : Flow (option TransactionStatus) :=
    match conn with
    | None => fret None                                              (* line 38 *)
    | Some nd =>
        targetAccountInfo <~ flift (getAccountInfo nd targetAddress) ;;  (* line 54 *)
        clinetAccountInfo <~ flift (getAccountInfo nd clientAddress) ;;  (* line 56 *)
        adminAddress <~ flift fetchAdminAddress ;;                       (* lines 58-59 *)
        inner <~ flift (legacy_build_inner clinetAccountInfo targetAccountInfo adminAddress
                          mosaicId amount price message) ;;
        emit (ESign (SignBundle inner)) ;;;                             (* lines 113-116 *)
        signedAggregateHash <~ flift (requestSign (SignBundle inner)) ;;
        hashLockTx <~ flift (legacy_build_hashLock signedAggregateHash) ;;
        emit (EWait 1000) ;;;                                           (* lines 126-131 *)
        emit (ESign (SignLock hashLockTx)) ;;;
        signedHashLockHash <~ flift (requestSign (SignLock hashLockTx)) ;;
        emit (EAnnounce AnnounceLock signedHashLockHash) ;;;             (* line 135 *)
        flift (announce AnnounceLock signedHashLockHash) ;;;
        emit (EListen WConfirmed (ai_address clinetAccountInfo) signedHashLockHash) ;;;
        hashLockTransactionStatus <~
          flift (confirm WConfirmed (ai_address clinetAccountInfo) signedHashLockHash) ;;
        emit (EAnnounce AnnounceBonded signedAggregateHash) ;;;          (* line 156 *)
        flift (announce AnnounceBonded signedAggregateHash) ;;;
        emit (EListen WBondedAdded (ai_address clinetAccountInfo) signedAggregateHash) ;;;
        aggregateBondedTransactionStatus <~
          flift (confirm WBondedAdded (ai_address clinetAccountInfo) signedAggregateHash) ;;
        fret (Some aggregateBondedTransactionStatus)                    (* line 177 *)
    end.
End Flows.

(** ** The order of the effects *)

Inductive EffectKind :=
  | KSignBundle | KSignLock | KSignCosig
  | KWait (ms : Z)
  | KAnnounce (k : AnnounceKind)
  | KListen (w : Watch).

#[export] Instance AnnounceKind_eq_dec : EqDecision AnnounceKind.
Proof. solve_decision. Defined.
#[export] Instance Watch_eq_dec : EqDecision Watch.
Proof. solve_decision. Defined.
#[export] Instance EffectKind_eq_dec : EqDecision EffectKind.
Proof. solve_decision. Defined.

Definition effect_kind (e : Effect) : EffectKind :=
  match e with
  | ESign (SignBundle _) => KSignBundle
  | ESign (SignLock _) => KSignLock
  | ESignCosig _ => KSignCosig
  | EWait ms => KWait ms
  | EAnnounce k _ => KAnnounce k
  | EListen w _ _ => KListen w
  end.

(** The protocol of a request: sign the bundle, wait, sign the lock,
    announce and watch the lock, wait, announce and watch the bundle. *)
Definition request_protocol : list EffectKind :=
  [KSignBundle; KWait 1000; KSignLock; KAnnounce AnnounceLock; KListen WConfirmed;
   KWait 5000; KAnnounce AnnounceBonded; KListen WBondedAdded].

(** The older flow's protocol: no wait between the lock's race and the
    bundle's announcement. *)
Definition legacy_protocol : list EffectKind :=
  [KSignBundle; KWait 1000; KSignLock; KAnnounce AnnounceLock; KListen WConfirmed;
   KAnnounce AnnounceBonded; KListen WBondedAdded].

Definition cosign_protocol : list EffectKind :=
  [KSignCosig; KAnnounce AnnounceCosignature; KListen WConfirmed].

Ltac flow_unfold :=
  unfold requestEscrowWithSSS, cosignedEscrowWithSSS, escrowRequestWithSSS, fbind, flift, emit, fret.

Section FlowProps.
Context `{SignerGateway} `{Announcer} `{ConfirmationTracker}.

  (** C7: Whatever the node, the signer and the ledger answer, the effects
      of a request happen in the protocol's order and stop at the first
      failure: the lock is signed 1000 ms after the bundle, announced and
      watched before the bundle, and the bundle is announced 5000 ms after
      the lock's race ended. *)
Theorem requestEscrow_effects_prefix cfg admin conn client target mosaicId amount price message :
    effect_kind <$> snd (requestEscrowWithSSS cfg admin conn client target mosaicId amount price message [])
    `prefix_of` request_protocol.
  Proof.
    flow_unfold. destruct conn as [nd|]; [|apply prefix_nil].
    repeat (case_match; simpl; try (eexists; reflexivity)).
  Qed.

  (** C18: The older [escrowRequestWithSSS] performs the protocol's effects
      in order but never waits between the hash lock's race and the
      bundle's announcement: the 5000 ms settling delay that the newer flow
      and the specification require is absent. *)
Theorem escrowRequest_no_settling_delay admin conn client target mosaicId amount price message :
    let kinds := effect_kind <$> snd (escrowRequestWithSSS admin conn client target mosaicId
                                        amount price message []) in
    kinds `prefix_of` legacy_protocol /\ KWait 5000 ∉ kinds.
  Proof.
    intros kinds. enough (kinds `prefix_of` legacy_protocol) as Hp.
    { split; [done|]. intros Hin. eapply elem_of_prefix in Hp; [|exact Hin].
      vm_compute in Hp. repeat (apply elem_of_cons in Hp as [Hp|Hp]; [discriminate|]).
      by apply elem_of_nil in Hp. }
    subst kinds. flow_unfold. destruct conn as [nd|]; [|apply prefix_nil].
    repeat (case_match; simpl; try (eexists; reflexivity)).
  Qed.

  (** The only bundle the older flow asks SSS to sign is the one its
      builder returned. *)
Lemma escrowRequest_signed_bundle admin conn client target mosaicId amount price message inner :
    ESign (SignBundle inner) ∈
      snd (escrowRequestWithSSS admin conn client target mosaicId amount price message []) ->
    exists acct ta a,
      legacy_build_inner acct ta a mosaicId amount price message = Returned inner.
  Proof.
    flow_unfold. destruct conn as [nd|]; [|simpl; by intros ?%elem_of_nil].
    repeat case_match; simpl; intros Hin; simplify_eq;
      repeat (apply elem_of_cons in Hin as [Hin|Hin]; [simplify_eq; eauto|]);
      by apply elem_of_nil in Hin.
  Qed.

  (** The answers a request needs, up to the lock's race. *)
Definition request_answers cfg admin nd client target mosaicId amount price message
      (inner : list InnerTransaction) (hB : string) (lock : HashLockTransaction) (hL : string)
      (acct : AccountInfo) : Prop :=
    (exists ts ta a,
       (getBlockTimestamp nd (nd_height nd) = Returned ts) /\
       (getAccountInfo nd target = Returned ta) /\ (getAccountInfo nd client = Returned acct) /\
       (admin = Returned a) /\
       (build_inner cfg acct ta a ts mosaicId amount price message = Returned inner)) /\
    (requestSign (SignBundle inner) = Returned hB) /\
    (build_hashLock cfg hB = Returned lock) /\
    (requestSign (SignLock lock) = Returned hL) /\
    (announce AnnounceLock hL = Returned tt).

  (** C8: The outcome of the hash lock's race is not looked at: whatever
      status the lock's race resolves with, a failure included, the bundle
      is announced 5000 ms later and the request returns the bundle's race
      outcome; the specification requires the flow to stop when the
      collateral lock fails. *)
Theorem requestEscrow_ignores_lock_status cfg admin nd client target mosaicId amount price
      message inner hB lock hL acct stL :
    request_answers cfg admin nd client target mosaicId amount price message inner hB lock hL acct ->
    confirm WConfirmed (ai_address acct) hL = Returned stL ->
    announce AnnounceBonded hB = Returned tt ->
    requestEscrowWithSSS cfg admin (Some nd) client target mosaicId amount price message []
    = (js_bind (confirm WBondedAdded (ai_address acct) hB) (fun st => Returned (Some st)),
       [ESign (SignBundle inner); EWait 1000; ESign (SignLock lock);
        EAnnounce AnnounceLock hL; EListen WConfirmed (ai_address acct) hL; EWait 5000;
        EAnnounce AnnounceBonded hB; EListen WBondedAdded (ai_address acct) hB]).
  Proof.
    intros ((ts & ta & a & Hts & Hta & Hacct & Ha & Hb) & HsB & Hl & HsL & HaL) HcL HaB.
    flow_unfold. rewrite Hts, Hta, Hacct, Ha, Hb, HsB, Hl, HsL, HaL, HcL, HaB. simpl.
    by destruct (confirm WBondedAdded (ai_address acct) hB).
  Qed.

  (** C19: A signer that rejects the bundle's signature makes the request
      throw after that single signature request, before anything is
      announced (the specification asks for an [Undetermined] outcome);
      an unreachable node gives [undefined] before any effect. *)
Theorem requestEscrow_error_outcomes cfg admin client target mosaicId amount price message :
    requestEscrowWithSSS cfg admin None client target mosaicId amount price message [] = (Returned None, []) /\
    (forall nd inner ts ta acct a,
       getBlockTimestamp nd (nd_height nd) = Returned ts ->
       getAccountInfo nd target = Returned ta -> getAccountInfo nd client = Returned acct ->
       admin = Returned a ->
       build_inner cfg acct ta a ts mosaicId amount price message = Returned inner ->
       requestSign (SignBundle inner) = Thrown ErrSigner ->
       requestEscrowWithSSS cfg admin (Some nd) client target mosaicId amount price message []
       = (Thrown ErrSigner, [ESign (SignBundle inner)])).
  Proof.
    split; [done|]. intros nd inner ts ta acct a Hts Hta Hacct Ha Hb Hs.
    flow_unfold. by rewrite Hts, Hta, Hacct, Ha, Hb, Hs.
  Qed.

  (** C20: The cosignature is announced before the listener is opened, and
      the race watches the confirmation of the parent bundle whose hash the
      signer returned, not the cosignature; the flow returns that race's
      outcome. *)
Theorem cosign_trace nd client hash acct agg parentHash :
    getAccountInfo nd client = Returned acct ->
    getTransaction nd hash Partial = Returned agg ->
    requestSignCosignature agg = Returned parentHash ->
    announce AnnounceCosignature parentHash = Returned tt ->
    cosignedEscrowWithSSS (Some nd) client hash []
    = (js_bind (confirm WConfirmed (ai_address acct) parentHash) (fun st => Returned (Some st)),
       [ESignCosig (ti_hash (agg_info agg)); EAnnounce AnnounceCosignature parentHash;
        EListen WConfirmed (ai_address acct) parentHash]).
  Proof.
    intros Ha Hg Hs Hn. flow_unfold. rewrite Ha, Hg, Hs, Hn. simpl.
    by destruct (confirm WConfirmed (ai_address acct) parentHash).
  Qed.
  (** C21: The collateral covers the bundle that is announced: in every run
      of a request, whatever the node, the signer and the ledger answer,
      a hash lock SSS is asked to sign is the one [build_hashLock] makes
      from the hash SSS returned for the bundle signed before it, and
      every bonded announcement of the run carries that same hash, so the
      network accepts the bonded bundle only against this lock. *)
Theorem requestEscrow_lock_covers_bundle cfg admin conn client target mosaicId amount price
      message lock :
    let tr := snd (requestEscrowWithSSS cfg admin conn client target mosaicId amount price message []) in
    ESign (SignLock lock) ∈ tr ->
    exists inner, ESign (SignBundle inner) ∈ tr /\
      requestSign (SignBundle inner) = Returned (hl_hash lock) /\
      build_hashLock cfg (hl_hash lock) = Returned lock /\
      forall h, EAnnounce AnnounceBonded h ∈ tr -> h = hl_hash lock.
  Proof.
    intros tr. subst tr. flow_unfold. destruct conn as [nd|]; [|simpl; by intros ?%elem_of_nil].
    repeat case_match; simpl; intros Hin; simplify_eq;
      repeat (apply elem_of_cons in Hin as [Hin|Hin]; [simplify_eq|]);
      try by apply elem_of_nil in Hin.
    all: match goal with
         | Hl : build_hashLock _ ?h = Returned _ |- _ =>
             apply build_hashLock_hash in Hl as Hh; subst h
         end.
    all: eexists; split_and!; [by repeat constructor | eassumption | eassumption |].
    all: intros h Hh; repeat (apply elem_of_cons in Hh as [Hh|Hh]; [simplify_eq; done|]);
      by apply elem_of_nil in Hh.
  Qed.
End FlowProps.

(** ** The race as the tracker of the flows

    [race_tracker sched] answers each watch with the outcome of the race
    of [Tracker.v] under the schedule of events [sched w h]: the status
    the promise resolved with, or a promise that never settles. *)
Definition race_confirm (sched : Watch -> string -> list TInput) (w : Watch) (a : Address)
    (h : string) : js_result TransactionStatus :=
  match run_schedule tracker_init (sched w h) with
  | Some s => match tracker_outcome s with Some st => Returned st | None => Hangs end
  | None => Hangs
  end.

Definition race_tracker (sched : Watch -> string -> list TInput) : ConfirmationTracker :=
  {| confirm := race_confirm sched |}.

Lemma run_schedule_without_event s sched s' :
  Forall (fun i => i <> INotify) sched -> run_schedule s sched = Some s' ->
  rtc step_without_event s s'.
Proof.
  revert s. induction sched as [|i sched IH]; simpl; intros s Hf H.
  - simplify_eq. constructor.
  - apply Forall_cons in Hf as [Hi Hf].
    destruct (tstep s i) as [s1|] eqn:E; simpl in H; [|discriminate].
    eapply rtc_l; [exists i; split; [exact Hi | exact E] | by apply IH].
Qed.

(** C10: A request whose bundle-added notification never arrives (it was
    emitted before [listener.open()] subscribed, or lost) and whose poll
    reads ['Success'] (the bundle is in the partial pool) never returns:
    with the race of [Tracker.v] as tracker, [requestEscrowWithSSS]
    hangs after announcing the bundle, whatever else the environment
    does without notifying. *)
Theorem requestEscrow_hangs_on_missed_event `{SignerGateway} `{Announcer}
    (sched : Watch -> string -> list TInput) cfg admin nd client target mosaicId amount price
    message inner hB lock hL acct stL st rest :
  @request_answers _ _ cfg admin nd client target mosaicId amount price message inner hB lock hL acct ->
  race_confirm sched WConfirmed (ai_address acct) hL = Returned stL ->
  announce AnnounceBonded hB = Returned tt ->
  sched WBondedAdded hB = ITimer :: IRespond BPoll st :: rest ->
  ts_code st = code_Success -> Forall (fun i => i <> INotify) rest ->
  fst (@requestEscrowWithSSS _ _ (race_tracker sched) cfg admin (Some nd) client target
         mosaicId amount price message []) = Hangs.
Proof.
  intros Hans HcL HaB Hs Hst Hrest.
  rewrite (@requestEscrow_ignores_lock_status _ _ (race_tracker sched) cfg admin nd client target
             mosaicId amount price message inner hB lock hL acct stL Hans HcL HaB).
  simpl. unfold race_confirm. rewrite Hs. simpl. unfold after_fetch. rewrite Hst. simpl.
  destruct (run_schedule _ rest) as [s'|] eqn:E; [|done].
  apply run_schedule_without_event in E; [|done].
  apply tracker_stuck_without_event in E; [by subst|done|done].
Qed.

(** ** Concrete runs *)

#[local] Instance demo_signer : SignerGateway := {|
  requestSign r := match r with SignBundle _ => Returned "HB" | SignLock _ => Returned "HL" end;
  requestSignCosignature agg := Returned (ti_hash (agg_info agg))
|}.

#[local] Instance demo_announcer : Announcer := {| announce _ _ := Returned tt |}.

(** The lock's poll reads a failure; the bundle is notified and succeeds. *)
Definition demo_sched (w : Watch) (h : string) : list TInput :=
  match w with
  | WConfirmed => [ITimer; IRespond BPoll status_bad]
  | WBondedAdded => [INotify; IRespond BEvent status_ok]
  end.

(** The bundle-added event is missed and the poll reads success. *)
Definition missed_sched (w : Watch) (h : string) : list TInput :=
  match w with
  | WConfirmed => [INotify; IRespond BEvent status_ok]
  | WBondedAdded => [ITimer; IRespond BPoll status_ok]
  end.

Definition orch_node : Node := {|
  nd_accounts := {[ "TALICE" := alice; "TBOB" := bob ]};
  nd_search := ∅;
  nd_transactions := {[ (Partial, "H1") := mkAggregate (mkInfo "H1" 0) [] ]};
  nd_blocks := {[ 10%Z := 1000%Z ]};
  nd_height := 10;
  nd_status := ∅
|}.

Definition demo_inner_orch : list InnerTransaction :=
  request_inner default_config alice bob admin_address 1000 "6BED913FA20223F8" 5 100 "m".

Definition demo_lock : HashLockTransaction :=
  mkHashLock (mkMosaic "72C0212E67A08BCE" 10000000) 480 "HB".

Lemma demo_request_answers :
  request_answers default_config (Returned admin_address) orch_node "TALICE" "TBOB"
    "6BED913FA20223F8" 5 100 "m" demo_inner_orch "HB" demo_lock "HL" alice.
Proof.
  split; [exists 1000%Z, bob, admin_address; vm_compute; repeat split; reflexivity|].
  vm_compute. repeat split; reflexivity.
Qed.

Lemma requestEscrow_ignores_lock_status_witness :
  @requestEscrowWithSSS _ _ (race_tracker demo_sched) default_config (Returned admin_address)
    (Some orch_node) "TALICE" "TBOB" "6BED913FA20223F8" 5 100 "m" []
  = (js_bind (race_confirm demo_sched WBondedAdded "TALICE" "HB") (fun st => Returned (Some st)),
     [ESign (SignBundle demo_inner_orch); EWait 1000; ESign (SignLock demo_lock);
      EAnnounce AnnounceLock "HL"; EListen WConfirmed "TALICE" "HL"; EWait 5000;
      EAnnounce AnnounceBonded "HB"; EListen WBondedAdded "TALICE" "HB"]).
Proof.
  apply (@requestEscrow_ignores_lock_status _ _ (race_tracker demo_sched) default_config
           (Returned admin_address) orch_node "TALICE" "TBOB" "6BED913FA20223F8" 5 100 "m"
           demo_inner_orch "HB" demo_lock "HL" alice status_bad).
  - exact demo_request_answers.
  - reflexivity.
  - reflexivity.
Defined.

Lemma requestEscrow_hangs_on_missed_event_witness :
  fst (@requestEscrowWithSSS _ _ (race_tracker missed_sched) default_config (Returned admin_address)
         (Some orch_node) "TALICE" "TBOB" "6BED913FA20223F8" 5 100 "m" []) = Hangs.
Proof.
  apply (requestEscrow_hangs_on_missed_event missed_sched default_config (Returned admin_address)
           orch_node "TALICE" "TBOB" "6BED913FA20223F8" 5 100 "m" demo_inner_orch "HB"
           demo_lock "HL" alice status_ok status_ok []).
  - exact demo_request_answers.
  - reflexivity.
  - reflexivity.
  - reflexivity.
  - reflexivity.
  - constructor.
Defined.

Lemma requestEscrow_error_outcomes_witness :
  @requestEscrowWithSSS _ _ (race_tracker demo_sched) default_config (Returned admin_address) None
    "TALICE" "TBOB" "6BED913FA20223F8" 5 100 "m" [] = (Returned None, []).
Proof. apply (proj1 (@requestEscrow_error_outcomes _ _ (race_tracker demo_sched) default_config _ _ _ _ _ _ _)). Defined.

Lemma cosign_trace_witness :
  @cosignedEscrowWithSSS _ _ (race_tracker demo_sched) (Some orch_node) "TALICE" "H1" []
  = (js_bind (race_confirm demo_sched WConfirmed "TALICE" "H1") (fun st => Returned (Some st)),
     [ESignCosig "H1"; EAnnounce AnnounceCosignature "H1"; EListen WConfirmed "TALICE" "H1"]).
Proof.
  apply (@cosign_trace _ _ (race_tracker demo_sched) orch_node "TALICE" "H1" alice
           (mkAggregate (mkInfo "H1" 0) []) "H1"); reflexivity.
Defined.

Lemma requestEscrow_lock_covers_bundle_witness :
  let tr := snd (@requestEscrowWithSSS _ _ (race_tracker demo_sched) default_config
                   (Returned admin_address) (Some orch_node) "TALICE" "TBOB" "6BED913FA20223F8"
                   5 100 "m" []) in
  ESign (SignLock demo_lock) ∈ tr /\
  exists inner, ESign (SignBundle inner) ∈ tr /\
    requestSign (SignBundle inner) = Returned (hl_hash demo_lock) /\
    build_hashLock default_config (hl_hash demo_lock) = Returned demo_lock /\
    forall h, EAnnounce AnnounceBonded h ∈ tr -> h = hl_hash demo_lock.
Proof.
  intros tr. assert (Hin : ESign (SignLock demo_lock) ∈ tr) by (vm_compute; repeat constructor).
  split; [exact Hin|].
  apply (@requestEscrow_lock_covers_bundle _ _ (race_tracker demo_sched) default_config
           (Returned admin_address) (Some orch_node) "TALICE" "TBOB" "6BED913FA20223F8"
           5 100 "m" demo_lock Hin).
Defined.
