(* ===== verification/EndToEnd.v ===== *)
(** The escrow protocol end to end: the node before and after the
    announcements a flow performs, and what [searchEscrow] then reads.

    The node of [Ledger.v] answers queries; here it also takes the
    announcements of a trace of [Orchestrator.v].  An announced bonded
    aggregate ([txRepo.announceAggregateBonded], line 176 of
    [utils/requestEscrowWithSSS.ts]) enters the partial group under its
    hash, unconfirmed (height 0), and becomes the newest entry of the
    search of every address it involves, the signers and recipients of
    its transfers (the node answers [search] in [Order.Desc]).  The bundle
    announced is the one SSS signed last ([ESign (SignBundle ..)]).  Hash
    locks and cosignatures do not change what a partial search returns
    and are not applied. *)
From S2P Require Import Prelude Config JsValue Ledger Builder Search Tracker Orchestrator.
From Stdlib Require Import QArith.

(** ** The node after announcements *)

(** The addresses an aggregate involves, each once. *)
Definition participants (inner : list InnerTransaction) : list Address :=
  remove_dups (concat (map (fun it => match it with
                                      | ITransfer t => [tt_signer t; tt_recipient t]
                                      | IOther _ => []
                                      end) inner)).

(** Each address's search gets [info] as its newest entry. *)
Definition index_search (g : TransactionGroup) (info : TransactionInfo) (addrs : list Address)
    (m : gmap (TransactionGroup * string) (list TransactionInfo))
    : gmap (TransactionGroup * string) (list TransactionInfo) :=
  foldr (fun a m => <[(g, a) := info :: default [] (m !! (g, a))]> m) m addrs.

Definition announce_bonded (nd : Node) (h : string) (inner : list InnerTransaction) : Node :=
  let info := mkInfo h 0 in
  {| nd_accounts := nd_accounts nd;
     nd_search := index_search Partial info (participants inner) (nd_search nd);
     nd_transactions := <[(Partial, h) := mkAggregate info inner]> (nd_transactions nd);
     nd_blocks := nd_blocks nd;
     nd_height := nd_height nd;
     nd_status := nd_status nd |}.

(** The node after the effects of a trace, [signed] being the bundle SSS
    signed last. *)
Fixpoint ledger_after (nd : Node) (signed : list InnerTransaction) (tr : list Effect) : Node :=
  match tr with
  | [] => nd
  | ESign (SignBundle inner) :: tr' => ledger_after nd inner tr'
  | EAnnounce AnnounceBonded h :: tr' => ledger_after (announce_bonded nd h signed) signed tr'
  | _ :: tr' => ledger_after nd signed tr'
  end.

(** ** Lemmas on the node *)

Lemma index_search_notin g info addrs m a :
  a ∉ addrs -> index_search g info addrs m !! (g, a) = m !! (g, a).
Proof.
  induction addrs as [|a' addrs IH]; simpl; intros Hn; [done|].
  apply not_elem_of_cons in Hn as [Hne Hn].
  rewrite lookup_insert_ne by congruence. by apply IH.
Qed.

Lemma index_search_lookup g info addrs m a :
  NoDup addrs -> a ∈ addrs ->
  index_search g info addrs m !! (g, a) = Some (info :: default [] (m !! (g, a))).
Proof.
  induction addrs as [|a' addrs IH]; simpl; intros Hnd Ha; [by apply elem_of_nil in Ha|].
  apply NoDup_cons in Hnd as [Hn Hnd].
  destruct (decide (a = a')) as [->|Hne].
  - by rewrite lookup_insert_eq, index_search_notin.
  - apply elem_of_cons in Ha as [?|Ha]; [done|].
    rewrite lookup_insert_ne by congruence. by apply IH.
Qed.

Lemma participants_lookup g info inner m a :
  a ∈ participants inner ->
  index_search g info (participants inner) m !! (g, a) = Some (info :: default [] (m !! (g, a))).
Proof. intros Ha. apply index_search_lookup; [apply NoDup_remove_dups | done]. Qed.

(** A party the announced request involves finds it first in its pending
    search. *)
Lemma search_after_announce cfg nd h p accp client target adminAddress blockTimestamp
    mosaicId amount price message :
  getAccountInfo nd p = Returned accp ->
  ai_address accp ∈ participants (request_inner cfg client target adminAddress blockTimestamp
                                    mosaicId amount price message) ->
  exists rs,
    searchEscrow cfg (Some (announce_bonded nd h (request_inner cfg client target adminAddress
                              blockTimestamp mosaicId amount price message))) p Partial
    = Returned (Some (expected_record cfg client target 0 blockTimestamp mosaicId amount price
                        message h :: rs)).
Proof.
  intros Hp Hin. unfold searchEscrow.
  change (getAccountInfo (announce_bonded nd h _) p) with (getAccountInfo nd p). rewrite Hp.
  cbn [js_bind]. unfold searchPage. cbn [nd_search announce_bonded].
  rewrite participants_lookup by exact Hin. cbn [js_bind fmap option_fmap option_map take].
  rewrite search_loop_omap. simpl.
  rewrite (search_item_request cfg _ Partial (mkInfo h 0) 0 (mkInfo h 0) client target adminAddress
             blockTimestamp mosaicId amount price message); [by eexists| |].
  - reflexivity.
  - unfold getTransaction. simpl. by rewrite lookup_insert_eq.
Qed.


(** C27: End to end, from the request to the search: once
    [requestEscrowWithSSS] has built the three transfers and announced
    the signed bundle, the node's pending search of the requester and the
    one of the counterparty both return that escrow first, as the record
    with the requester, the counterparty, block time 0, the expiration
    instant, the mosaic, the amount, the price in XYM, the message and the
    announced hash. *)
Theorem request_listed_after_announce `{SignerGateway} `{Announcer} `{ConfirmationTracker}
    cfg admin nd client target mosaicId amount price message ts ta acct a h :
  getBlockTimestamp nd (nd_height nd) = Returned ts ->
  getAccountInfo nd target = Returned ta -> getAccountInfo nd client = Returned acct ->
  admin = Returned a ->
  build_inner cfg acct ta a ts mosaicId amount price message =
    Returned (request_inner cfg acct ta a ts mosaicId amount price message) ->
  EAnnounce AnnounceBonded h ∈
    snd (requestEscrowWithSSS cfg admin (Some nd) client target mosaicId amount price message []) ->
  let nd' := ledger_after nd [] (snd (requestEscrowWithSSS cfg admin (Some nd) client target
                                        mosaicId amount price message [])) in
  let r := expected_record cfg acct ta 0 ts mosaicId amount price message h in
  (exists rs, searchEscrow cfg (Some nd') client Partial = Returned (Some (r :: rs))) /\
  (exists rs, searchEscrow cfg (Some nd') target Partial = Returned (Some (r :: rs))).
Proof.
  intros Hts Hta Hacct Ha Hb Hin nd' r. subst nd' r.
  assert (ledger_after nd [] (snd (requestEscrowWithSSS cfg admin (Some nd) client target mosaicId
                                     amount price message []))
          = announce_bonded nd h (request_inner cfg acct ta a ts mosaicId amount price message))
    as ->.
  { revert Hin. flow_unfold. rewrite Hts, Hta, Hacct, Ha, Hb. simpl.
    repeat case_match; simpl; intros Hin;
      repeat (apply elem_of_cons in Hin as [Hin|Hin]; [simplify_eq; reflexivity|]);
      by apply elem_of_nil in Hin. }
  split; eapply search_after_announce; [exact Hacct | | exact Hta |];
    apply elem_of_remove_dups; simpl; set_solver.
Qed.

(** ** A concrete run *)

Lemma request_listed_after_announce_witness :
  EAnnounce AnnounceBonded "HB" ∈
    snd (@requestEscrowWithSSS demo_signer demo_announcer (race_tracker demo_sched) default_config
           (Returned admin_address) (Some orch_node) "TALICE" "TBOB" "6BED913FA20223F8" 5 100 "m" []) /\
  let nd' := ledger_after orch_node []
               (snd (@requestEscrowWithSSS demo_signer demo_announcer (race_tracker demo_sched)
                       default_config (Returned admin_address) (Some orch_node) "TALICE" "TBOB"
                       "6BED913FA20223F8" 5 100 "m" [])) in
  let r := expected_record default_config alice bob 0 1000 "6BED913FA20223F8" 5 100 "m" "HB" in
  (exists rs, searchEscrow default_config (Some nd') "TALICE" Partial = Returned (Some (r :: rs))) /\
  (exists rs, searchEscrow default_config (Some nd') "TBOB" Partial = Returned (Some (r :: rs))).
Proof.
  assert (Hin : EAnnounce AnnounceBonded "HB" ∈
    snd (@requestEscrowWithSSS demo_signer demo_announcer (race_tracker demo_sched) default_config
           (Returned admin_address) (Some orch_node) "TALICE" "TBOB" "6BED913FA20223F8" 5 100 "m" []))
    by (vm_compute; repeat constructor).
  split; [exact Hin|].
  apply (@request_listed_after_announce demo_signer demo_announcer (race_tracker demo_sched)
           default_config (Returned admin_address) orch_node "TALICE" "TBOB" "6BED913FA20223F8"
           5 100 "m" 1000 bob alice admin_address "HB");
    first [exact Hin | reflexivity | vm_compute; reflexivity].
Defined.
