(* ===== verification/Pages.v ===== *)
(** The pages and cards that call the protocol, as state transformers of
    the React state they set: [pages/escrow/index.tsx] (form validation,
    submission, result handling), [pages/escrow-request/index.tsx] (the
    same on the older flow), [pages/detail/index.tsx] (selection of a
    pending escrow by hash, cosignature), [pages/history/index.tsx], the
    confirmation dialog [components/AlertsDialogEscrowRequest.tsx] and the
    cards [components/CardEscrowPartial.tsx] and
    [components/CardEscrowConfirmed.tsx].  Rendering is reduced to the
    values shown; styling is not modelled.  The session, the navigation
    and the pages' mounting are in [Session.v]. *)
From S2P Require Import Prelude Config JsValue Ledger Builder Search Tracker Orchestrator.
From Stdlib Require Import Ascii QArith.

(** [EscrowRequestInputs] ([@/types/escrowRequestInputs]); the amounts
    are the numbers the form hands to the flow, taken as integers. *)
Record EscrowRequestInputs := mkInputs {
  in_targetAddress : string;
  in_mosaicId : string;
  in_amount : Z;
  in_price : Z;
  in_message : string
}.

(** ** Form validation

    [validationRules] of [pages/escrow/index.tsx] (lines 56-89) and of
    [pages/escrow-request/index.tsx] (lines 57-92), as data: each field's
    rules, in the order react-hook-form evaluates them ([required],
    [maxLength], [pattern], [validate]), which is also their order in the
    source.  A field's error is the message of its first failing rule. *)

Inductive Field := FTargetAddress | FMosaicId | FAmount | FPrice | FMessage.

#[export] Instance Field_eq_dec : EqDecision Field.
Proof. solve_decision. Defined.

Inductive Rule :=
  | Required (message : string)
  | MaxLength (n : nat) (message : string)
  | Pattern (n : nat) (message : string)       (* /^([A-Z0-9]{n,n})$/ *)
  | NonZero (message : string).                (* validate.nonZero: value > 0 || message *)

Definition rule_message (r : Rule) : string :=
  match r with Required m | MaxLength _ m | Pattern _ m | NonZero m => m end.

(** The value a field holds: the text fields' strings and the amounts. *)
Inductive FieldValue := VText (s : string) | VNumber (z : Z).

Definition field_value (i : EscrowRequestInputs) (f : Field) : FieldValue :=
  match f with
  | FTargetAddress => VText (in_targetAddress i)
  | FMosaicId => VText (in_mosaicId i)
  | FAmount => VNumber (in_amount i)
  | FPrice => VNumber (in_price i)
  | FMessage => VText (in_message i)
  end.

(** [/^([A-Z0-9]{n,n})$/] *)
Definition upper_alnum (c : ascii) : bool :=
  let n := nat_of_ascii c in ((48 <=? n) && (n <=? 57)) || ((65 <=? n) && (n <=? 90)).

Definition matches_upper_alnum (n : nat) (s : string) : bool :=
  (String.length s =? n)%nat && str_forall upper_alnum s.

(** One rule on one value; [maxLength] and [pattern] apply to strings
    only, as in react-hook-form. *)
Definition rule_ok (r : Rule) (v : FieldValue) : bool :=
  match r, v with
  | Required _, VText s => negb (s =? "")%string
  | Required _, VNumber _ => true
  | MaxLength n _, VText s => (js_length s <=? n)%nat
  | Pattern n _, VText s => matches_upper_alnum n s
  | MaxLength _ _, VNumber _ | Pattern _ _, VNumber _ => true
  | NonZero _, VNumber z => (0 <? z)%Z
  | NonZero _, VText s => match js_Number s with NumInt z => (0 <? z)%Z | NumOther => false end
  end.

Abbreviation Rules := (list (Field * list Rule)).

Fixpoint rules_for (rules : Rules) (f : Field) : list Rule :=
  match rules with
  | [] => []
  | (f', rs) :: rules' => if decide (f = f') then rs else rules_for rules' f
  end.

Definition field_error (rules : Rules) (i : EscrowRequestInputs) (f : Field) : option string :=
  rule_message <$> find (fun r => negb (rule_ok r (field_value i f))) (rules_for rules f).

(** [formState.errors]: the fields in error, with their messages. *)
Definition validationErrors (rules : Rules) (i : EscrowRequestInputs) : list (Field * string) :=
  omap (fun f => pair f <$> field_error rules i f) [FTargetAddress; FMosaicId; FAmount; FPrice; FMessage].

Definition escrow_validationRules : Rules := [
  (FTargetAddress, [Required "宛先アドレスを入力して下さい";
                    Pattern 39 "正しいアドレスのフォーマットではありません"]);
  (FMosaicId, [Required "モザイクIDを入力して下さい";
               Pattern 16 "正しいモザイクIDのフォーマットではありません"]);
  (FAmount, [Required "数量を入力して下さい"; NonZero "数量には0より多い数値を入力して下さい"]);
  (FPrice, [Required "取引価格を指定して下さい"; NonZero "取引価格は0より多い数値を入力して下さい"]);
  (FMessage, [MaxLength 300 "公開メッセージは３００文字以内にして下さい"])].

Definition request_validationRules : Rules := [
  (FTargetAddress, [Required "宛先アドレスを入力して下さい";
                    Pattern 39 "正しいアドレスのフォーマットではありません"]);
  (FMosaicId, [Required "モザイクIDを入力して下さい";
               Pattern 16 "正しいモザイクIDのフォーマットではありません"]);
  (FAmount, [Required "数量を入力して下さい"; NonZero "数量には0より多い数値を入力して下さい"]);
  (FPrice, [Required "取引価格を指定して下さい"; NonZero "取引価格は0より多い数値を入力して下さい"]);
  (FMessage, [MaxLength 300 "メッセージは３００文字以内にして下さい"])].

(** [useForm]'s [defaultValues] (line 53; line 54 of the older page),
    also the dialog's fallback when no input was submitted (line 149). *)
Definition form_defaults : EscrowRequestInputs := mkInputs "" "" 1 1 "".

(** ** Page state *)

Inductive Severity := SevError | SevSuccess.

Inductive SnackMsg :=
  | MsgNone
  | MsgNodeFailed                  (* 'NODEの接続に失敗しました' *)
  | MsgDetected (group : string)   (* `${group} TXを検知しました` *)
  | MsgFailed (code : string).     (* `TXに失敗しました ${code}` *)

Record PageState := mkPage {
  progress : bool;
  openSnackbar : bool;
  snackbarSeverity : Severity;
  snackbarMessage : SnackMsg;
  openDialog : bool;
  inputData : option EscrowRequestInputs;
  txHash : string
}.

(** [handleSubmit(onSubmit)], lines 91-94: the dialog opens with the
    inputs only when no rule fails. *)
Definition submit (rules : Rules) (i : EscrowRequestInputs) (ps : PageState) : PageState :=
  match validationErrors rules i with
  | [] => mkPage (progress ps) (openSnackbar ps) (snackbarSeverity ps) (snackbarMessage ps)
            true (Some i) (txHash ps)
  | _ => ps
  end.

Definition set_snackbar (sev : Severity) (m : SnackMsg) (ps : PageState) : PageState :=
  mkPage (progress ps) true sev m (openDialog ps) (inputData ps) (txHash ps).

Definition set_progress (b : bool) (ps : PageState) : PageState :=
  mkPage b (openSnackbar ps) (snackbarSeverity ps) (snackbarMessage ps) (openDialog ps)
    (inputData ps) (txHash ps).

(** [handleAgreeClick], lines 97-127, once the awaited flow has an
    outcome: [setProgress(true)], the snackbar of the outcome, and the
    [finally]'s [setProgress(false)], which never runs when the flow never
    settles.  A thrown error is only logged. *)
Definition agree_outcome (r : js_result (option TransactionStatus)) (ps : PageState) : PageState :=
  let ps := set_progress true ps in
  match r with
  | Returned None => set_progress false (set_snackbar SevError MsgNodeFailed ps)
  | Returned (Some st) =>
      set_progress false
        (if ts_code st === code_Success
         then set_snackbar SevSuccess (MsgDetected (ts_group st)) ps
         else set_snackbar SevError (MsgFailed (ts_code st)) ps)
  | Thrown _ => set_progress false ps
  | Hangs => ps
  end.

(** [handleAgreeClickSendMessage] of [pages/escrow-request/index.tsx],
    lines 101-132: the same handling, which also records the hash of a
    successful status. *)
Definition agree_outcome_with_hash (r : js_result (option TransactionStatus)) (ps : PageState)
    : PageState :=
  let ps' := agree_outcome r ps in
  match r with
  | Returned (Some st) =>
      if ts_code st === code_Success
      then mkPage (progress ps') (openSnackbar ps') (snackbarSeverity ps') (snackbarMessage ps')
             (openDialog ps') (inputData ps') (ts_hash st)
      else ps'
  | _ => ps'
  end.

(** ** The detail page, [pages/detail/index.tsx] *)

Record DetailState := mkDetail { escrowData : escrowAggregateTransaction; dprogress : bool }.

(** Lines 26-36: the initial, empty record, with the spinner on. *)
Definition detail_init : DetailState :=
  mkDetail (mkEscrow "" "" 0 (NumInt 0) "" 0 0 "" "") true.

(** [initalescrowDataList], lines 54-63: every record whose hash is the
    query's hash is stored in turn and turns the spinner off. *)
Definition select_escrow (escrowHash : string)
    (result : js_result (option (list escrowAggregateTransaction))) (ds : DetailState)
    : DetailState :=
  match result with
  | Returned (Some rs) =>
      fold_left (fun ds e => if escrowHash === hash_of e then mkDetail e false else ds) rs ds
  | _ => ds
  end.

(** ** The history page, [pages/history/index.tsx] lines 33-44 *)

(** The search is not awaited: the spinner is turned off at once and the
    list is filled when the search returns a list. *)
Definition history_load (result : js_result (option (list escrowAggregateTransaction)))
    (current : list escrowAggregateTransaction) : bool * list escrowAggregateTransaction :=
  (false, match result with Returned (Some rs) => rs | _ => current end).

(** ** The confirmation dialog, [components/AlertsDialogEscrowRequest.tsx] *)

(** Line 88: the service fee shown, in XYM. *)
Definition dialog_fee (i : EscrowRequestInputs) : Q := inject_Z (in_amount i) * (1 # 10).

(** Line 117: the total shown, in XYM, before the network fee. *)
Definition dialog_total (i : EscrowRequestInputs) : Q := inject_Z (in_amount i) * (11 # 10) + 10.

(** What the dialog shows, lines 18-133: the terms
    ([`${price} xym ⇆ ${mosaicId} × ${amount}`]), the target address, the
    message, the service fee and the total; the notes are constant text. *)
Record DialogView := mkDialogView {
  dv_open : bool;
  dv_price : Z; dv_mosaicId : string; dv_amount : Z;
  dv_target : string; dv_message : string;
  dv_fee : Q; dv_total : Q
}.

Definition dialog_view (openDialog : bool) (i : EscrowRequestInputs) : DialogView :=
  mkDialogView openDialog (in_price i) (in_mosaicId i) (in_amount i) (in_targetAddress i)
    (in_message i) (dialog_fee i) (dialog_total i).

(** The cancel button (line 135) and [onClose] (line 19). *)
Definition dialog_cancel (ps : PageState) : PageState :=
  mkPage (progress ps) (openSnackbar ps) (snackbarSeverity ps) (snackbarMessage ps) false
    (inputData ps) (txHash ps).

(** ** Agreeing in the escrow page's dialog *)

Section DialogAgree.
Context `{SignerGateway} `{Announcer} `{ConfirmationTracker}.

(** [pages/escrow/index.tsx] lines 139-145: the dialog's [handleAgreeClick]
    runs the page's [handleAgreeClick] (lines 97-127) on [inputData!] and
    closes the dialog; the state is the one after the flow's outcome,
    with the flow's effects. *)
Definition dialog_agree (cfg : Config) (admin : js_result Address) (conn : option Node)
    (clientAddress : Address) (ps : PageState) : PageState * list Effect :=
  let run :=
    match inputData ps with
    | Some i => requestEscrowWithSSS cfg admin conn clientAddress (in_targetAddress i)
                  (in_mosaicId i) (in_amount i) (in_price i) (in_message i) []
    | None => (Thrown (ErrTypeError "inputData"), [])
    end in
  (dialog_cancel (agree_outcome (fst run) ps), snd run).

(** [pages/escrow-request/index.tsx] lines 94-97: [handleSubmit(onSubmit)]
    with the page's own rules. *)
Definition request_submit (i : EscrowRequestInputs) (ps : PageState) : PageState :=
  submit request_validationRules i ps.

(** Lines 144-151: the dialog's [handleAgreeClick] runs
    [handleAgreeClickSendMessage] (lines 101-132) on [inputData!], which
    calls the older [escrowRequestWithSSS], and closes the dialog. *)
Definition request_dialog_agree (admin : js_result Address) (conn : option Node)
    (clientAddress : Address) (ps : PageState) : PageState * list Effect :=
  let run :=
    match inputData ps with
    | Some i => escrowRequestWithSSS admin conn clientAddress (in_targetAddress i)
                  (in_mosaicId i) (in_amount i) (in_price i) (in_message i) []
    | None => (Thrown (ErrTypeError "inputData"), [])
    end in
  (dialog_cancel (agree_outcome_with_hash (fst run) ps), snd run).
End DialogAgree.

(** ** The cards *)

Inductive Direction := Requesting | Requested.

Record CardView := mkCard {
  cv_direction : Direction;
  cv_mosaicId : string;
  cv_amount : Z;
  cv_price : Q;
  cv_message : string;
  cv_time : js_number;
  cv_hash : string;
  cv_detail_link : option string      (* the button to /detail?hash= *)
}.

(** [CardEscrowPartial], [components/CardEscrowPartial.tsx] lines 8-130:
    the requester's own escrows point up and have no button; the others
    point down and link to the detail page of their hash. *)
Definition card_partial_view (clientAddress : Address) (r : escrowAggregateTransaction) : CardView :=
  let mine := clientAddress === signerAddress r in
  mkCard (if mine then Requesting else Requested) (mosaicId_of r) (amount_of r) (price_of r)
    (message_of r) (expirationTime_of r) (hash_of r)
    (if mine then None else Some (hash_of r)).

(** [CardEscrowConfirmed], [components/CardEscrowConfirmed.tsx] lines
    7-108: the same fields with the block's time, and no button. *)
Definition card_confirmed_view (clientAddress : Address) (r : escrowAggregateTransaction) : CardView :=
  mkCard (if clientAddress === signerAddress r then Requesting else Requested)
    (mosaicId_of r) (amount_of r) (price_of r) (message_of r) (NumInt (blockCreateTime r))
    (hash_of r) None.

(** ** Properties of the pages *)

Lemma validationErrors_nil rules i :
  validationErrors rules i = [] <-> forall f, field_error rules i f = None.
Proof.
  unfold validationErrors. split.
  - intros H f. destruct (field_error rules i f) eqn:E; [|done].
    destruct f; simpl in H; rewrite ?E in H; simpl in H; repeat case_match; discriminate.
  - intros H. simpl. by rewrite !H.
Qed.

(** C22: Amount and price must be positive: inputs with a zero or
    negative amount or price fail validation, so [handleSubmit] leaves the
    page unchanged and neither the dialog nor the builder is reached. *)
Theorem submit_rejects_nonpositive i ps :
  (in_amount i <= 0 \/ in_price i <= 0)%Z -> submit escrow_validationRules i ps = ps.
Proof.
  intros Hle. unfold submit.
  destruct (validationErrors escrow_validationRules i) eqn:E; [|done].
  pose proof (proj1 (validationErrors_nil _ i) E) as Hok.
  pose proof (Hok FAmount) as Ha. pose proof (Hok FPrice) as Hp.
  unfold field_error in Ha, Hp. simpl in Ha, Hp.
  destruct (0 <? in_amount i)%Z eqn:Ea, (0 <? in_price i)%Z eqn:Ep; try discriminate.
  apply Z.ltb_lt in Ea, Ep. lia.
Qed.

(** C23: The form's mosaic-id rule ([[A-Z0-9]{16}]) is wider than what
    [new MosaicId] accepts (sixteen hex digits): inputs that pass every
    rule make the builder throw. *)
Theorem form_accepts_non_hex_mosaicId :
  exists i, validationErrors escrow_validationRules i = [] /\ valid_mosaicId (in_mosaicId i) = false /\
    build_inner default_config alice bob admin_address 1000 (in_mosaicId i)
      (in_amount i) (in_price i) (in_message i) = Thrown (ErrTypeError "MosaicId").
Proof.
  exists (mkInputs "TBXUTAX6O6EUVPB6X7OBNX6UUXBMPPAFX7KE5TQ" "ZZZZZZZZZZZZZZZZ" 5 100 "m").
  split; [reflexivity|]. split; [reflexivity|].
  apply build_inner_bad_mosaicId; reflexivity.
Qed.

(** C34: The two request pages validate alike: the rules of
    [pages/escrow] and of [pages/escrow-request] reject the same inputs
    on the same fields with the same messages, except the message field's
    length message, whose wording differs. *)
Theorem validation_pages_agree i f :
  (field_error escrow_validationRules i f = None <-> field_error request_validationRules i f = None) /\
  (f <> FMessage -> field_error escrow_validationRules i f = field_error request_validationRules i f).
Proof.
  destruct f; unfold field_error; simpl; try (split; [done | intros; reflexivity]).
  split; [|by intros []]. by case_match.
Qed.

(** C24: A request whose bundle signature the user rejects ends with no
    message at all: the flow throws, [handleAgreeClick] only logs the
    error, the spinner stops and the snackbar is left as it was; and a
    request that never settles leaves the spinner on for good. *)
Theorem agree_outcome_signer_rejected `{SignerGateway} `{Announcer} `{ConfirmationTracker}
    cfg admin nd client target mosaicId amount price message inner ts ta acct a ps :
  getBlockTimestamp nd (nd_height nd) = Returned ts ->
  getAccountInfo nd target = Returned ta -> getAccountInfo nd client = Returned acct ->
  admin = Returned a ->
  build_inner cfg acct ta a ts mosaicId amount price message = Returned inner ->
  requestSign (SignBundle inner) = Thrown ErrSigner ->
  let ps' := agree_outcome (fst (requestEscrowWithSSS cfg admin (Some nd) client target
                                   mosaicId amount price message [])) ps in
  progress ps' = false /\ openSnackbar ps' = openSnackbar ps /\
  snackbarMessage ps' = snackbarMessage ps /\
  progress (agree_outcome Hangs ps) = true.
Proof.
  intros Hts Hta Hacct Ha Hb Hs ps'. subst ps'.
  unfold requestEscrowWithSSS, fbind, flift, emit, fret.
  by rewrite Hts, Hta, Hacct, Ha, Hb, Hs.
Qed.

(** C25: The detail page keeps the last record of the pending list whose
    hash is the query's and turns the spinner off; when no pending record
    has that hash (already cosigned, expired, or a bundle the search never
    lists), the page stays on its spinner. *)
Theorem select_escrow_spec h rs ds :
  select_escrow h (Returned (Some rs)) ds =
  match last (filter (fun e => hash_of e = h) rs) with
  | Some e => mkDetail e false
  | None => ds
  end.
Proof.
  simpl. revert ds. induction rs as [|e rs IH] using rev_ind; intros ds; [done|].
  rewrite fold_left_app, IH, filter_app. cbn [fold_left].
  destruct (String.eqb_spec h (hash_of e)) as [->|Hne].
  - rewrite filter_cons_True, filter_nil, last_snoc by done.
    done.
  - rewrite filter_cons_False, filter_nil, app_nil_r by congruence.
    done.
Qed.

(** The fee the bundle charges, in XYM: the third transfer's amount read
    back as [searchEscrow] reads prices. *)
Definition charged_fee (cfg : Config) (price : Z) : Q := div_1e6 (serviceFee cfg price).

(** C26: The confirmation dialog computes the service fee and the total
    from the mosaic amount instead of the price: with the fee rate of
    10%, the fee it shows equals the fee the bundle charges only when the
    amount equals the price, and the total it shows (amount + 10% + 10
    XYM of deposit) differs from what the requester pays (price + 10% +
    10 XYM) in the same cases. *)
Theorem dialog_fee_mismatch cfg i :
  servieFee_ppm cfg = 100000%Z ->
  (dialog_fee i == charged_fee cfg (in_price i) <-> in_amount i = in_price i) /\
  (dialog_total i == inject_Z (in_price i) + charged_fee cfg (in_price i) + 10
     <-> in_amount i = in_price i).
Proof.
  intros Hfee. unfold dialog_fee, dialog_total, charged_fee, div_1e6, serviceFee.
  rewrite Hfee, !Qred_correct. unfold Qeq, Qplus, Qmult. simpl.
  split; split; intros H; try lia; rewrite ?H; lia.
Qed.


(** C38: From the form to the signer: after inputs pass validation and
    the dialog's agree button is pressed, the first thing the page does
    is ask SSS to sign the bundle built from exactly those inputs, and
    the dialog is closed. *)
Theorem submit_agree_signs_inputs `{SignerGateway} `{Announcer} `{ConfirmationTracker}
    cfg admin nd client i ps ts ta acct a inner :
  validationErrors escrow_validationRules i = [] ->
  getBlockTimestamp nd (nd_height nd) = Returned ts ->
  getAccountInfo nd (in_targetAddress i) = Returned ta -> getAccountInfo nd client = Returned acct ->
  admin = Returned a ->
  build_inner cfg acct ta a ts (in_mosaicId i) (in_amount i) (in_price i) (in_message i) = Returned inner ->
  openDialog (fst (dialog_agree cfg admin (Some nd) client (submit escrow_validationRules i ps))) = false /\
  head (snd (dialog_agree cfg admin (Some nd) client (submit escrow_validationRules i ps)))
    = Some (ESign (SignBundle inner)).
Proof.
  intros Hv Hts Hta Hacct Ha Hb. split; [reflexivity|].
  unfold dialog_agree, submit. rewrite Hv. simpl.
  unfold requestEscrowWithSSS, fbind, flift, emit, fret.
  rewrite Hts, Hta, Hacct, Ha, Hb. simpl.
  repeat case_match; reflexivity.
Qed.

(** C40: A request made on [pages/escrow-request] can never be found
    again: whatever its outcome (the page may well report the bundle
    detected and record its hash), the bundle its dialog has SSS sign
    yields no record when any node returns it to [searchEscrow], so it
    appears neither on the detail page nor in the history. *)
Theorem request_page_bundle_never_listed `{SignerGateway} `{Announcer} `{ConfirmationTracker}
    cfg admin conn client i ps inner nd g e info :
  servieName cfg <> "" ->
  ESign (SignBundle inner) ∈ snd (request_dialog_agree admin conn client (request_submit i ps)) ->
  getTransaction nd (ti_hash e) g = Returned (mkAggregate info inner) ->
  search_item cfg nd g e = None.
Proof.
  intros Hname Hin Hget. unfold request_dialog_agree in Hin. simpl in Hin.
  destruct (inputData (request_submit i ps)) as [j|]; simpl in Hin; [|by apply elem_of_nil in Hin].
  apply escrowRequest_signed_bundle in Hin as (acct & ta & a & Hb).
  destruct (legacy_inner_unmarked _ _ _ _ _ _ _ _ Hb) as (tx3 & Htx3 & Hm).
  eapply search_item_unmarked; [exact Hget | exact Htx3 | congruence].
Qed.

(** ** Concrete runs *)

Definition demo_inputs : EscrowRequestInputs :=
  mkInputs "TBXUTAX6O6EUVPB6X7OBNX6UUXBMPPAFX7KE5TQ" "6BED913FA20223F8" 0 100 "m".

Definition page_init : PageState := mkPage false false SevError MsgNone false None "".

Lemma submit_rejects_nonpositive_witness :
  submit escrow_validationRules demo_inputs page_init = page_init.
Proof. apply submit_rejects_nonpositive. simpl. lia. Defined.

Lemma dialog_fee_mismatch_witness :
  (dialog_fee demo_inputs == charged_fee default_config (in_price demo_inputs)
     <-> in_amount demo_inputs = in_price demo_inputs) /\
  (dialog_total demo_inputs == inject_Z (in_price demo_inputs)
                               + charged_fee default_config (in_price demo_inputs) + 10
     <-> in_amount demo_inputs = in_price demo_inputs).
Proof. apply dialog_fee_mismatch. reflexivity. Defined.



#[local] Instance rejecting_signer : SignerGateway := {|
  requestSign _ := Thrown ErrSigner;
  requestSignCosignature _ := Thrown ErrSigner
|}.

Lemma agree_outcome_signer_rejected_witness :
  let ps' := agree_outcome
               (fst (@requestEscrowWithSSS rejecting_signer demo_announcer (race_tracker demo_sched)
                       default_config (Returned admin_address) (Some orch_node) "TALICE" "TBOB"
                       "6BED913FA20223F8" 5 100 "m" [])) page_init in
  progress ps' = false /\ openSnackbar ps' = openSnackbar page_init /\
  snackbarMessage ps' = snackbarMessage page_init /\
  progress (agree_outcome Hangs page_init) = true.
Proof.
  apply (@agree_outcome_signer_rejected rejecting_signer demo_announcer (race_tracker demo_sched)
           default_config (Returned admin_address) orch_node "TALICE" "TBOB" "6BED913FA20223F8"
           5 100 "m" demo_inner_orch 1000 bob alice admin_address); vm_compute; reflexivity.
Defined.

Lemma validation_pages_agree_witness :
  (field_error escrow_validationRules demo_inputs FAmount = None <->
   field_error request_validationRules demo_inputs FAmount = None) /\
  field_error escrow_validationRules demo_inputs FAmount =
  field_error request_validationRules demo_inputs FAmount.
Proof.
  destruct (validation_pages_agree demo_inputs FAmount) as [H1 H2].
  split; [exact H1 | apply H2; discriminate].
Defined.

Definition form_inputs : EscrowRequestInputs :=
  mkInputs "TBXUTAX6O6EUVPB6X7OBNX6UUXBMPPAFX7KE5TQ" "6BED913FA20223F8" 5 100 "m".

Definition form_target : AccountInfo := mkAccount "TBXUTAX6O6EUVPB6X7OBNX6UUXBMPPAFX7KE5TQ" "PK-BOB".

Definition form_node : Node := {|
  nd_accounts := {[ "TALICE" := alice; "TBXUTAX6O6EUVPB6X7OBNX6UUXBMPPAFX7KE5TQ" := form_target ]};
  nd_search := ∅;
  nd_transactions := ∅;
  nd_blocks := {[ 10%Z := 1000%Z ]};
  nd_height := 10%Z;
  nd_status := ∅
|}.

Lemma submit_agree_signs_inputs_witness :
  let run := @dialog_agree rejecting_signer demo_announcer (race_tracker demo_sched) default_config
               (Returned admin_address) (Some form_node) "TALICE"
               (submit escrow_validationRules form_inputs page_init) in
  openDialog (fst run) = false /\
  head (snd run) = Some (ESign (SignBundle (request_inner default_config alice form_target
                                              admin_address 1000 "6BED913FA20223F8" 5 100 "m"))).
Proof.
  apply (@submit_agree_signs_inputs rejecting_signer demo_announcer (race_tracker demo_sched)
           default_config (Returned admin_address) form_node "TALICE" form_inputs page_init
           1000 form_target alice admin_address); vm_compute; reflexivity.
Defined.

(** The bundle the older page builds from [form_inputs], and a node whose
    pending pool holds it. *)
Definition form_legacy_inner : list InnerTransaction :=
  match legacy_build_inner alice form_target admin_address "6BED913FA20223F8" 5 100 "m" with
  | Returned l => l
  | _ => []
  end.

Definition legacy_node : Node := {|
  nd_accounts := ∅;
  nd_search := ∅;
  nd_transactions := {[ (Partial, "H2") := mkAggregate (mkInfo "H2" 0) form_legacy_inner ]};
  nd_blocks := ∅;
  nd_height := 0%Z;
  nd_status := ∅
|}.

Lemma request_page_bundle_never_listed_witness :
  ESign (SignBundle form_legacy_inner) ∈
    snd (@request_dialog_agree rejecting_signer demo_announcer (race_tracker demo_sched)
           (Returned admin_address) (Some form_node) "TALICE"
           (request_submit form_inputs page_init)) /\
  search_item default_config legacy_node Partial (mkInfo "H2" 0) = None.
Proof.
  assert (Hin : ESign (SignBundle form_legacy_inner) ∈
    snd (@request_dialog_agree rejecting_signer demo_announcer (race_tracker demo_sched)
           (Returned admin_address) (Some form_node) "TALICE"
           (request_submit form_inputs page_init))) by (vm_compute; constructor).
  split; [exact Hin|].
  apply (@request_page_bundle_never_listed rejecting_signer demo_announcer (race_tracker demo_sched)
           default_config (Returned admin_address) (Some form_node) "TALICE" form_inputs page_init
           form_legacy_inner legacy_node Partial (mkInfo "H2" 0) (mkInfo "H2" 0));
    [discriminate | exact Hin | reflexivity].
Defined.
