(* ===== verification/Session.v ===== *)
(** The session and navigation shared by the pages, and the pages' mount
    effects: the [useSssInit] effect every page repeats
    ([pages/index.tsx] lines 39-46 and the same lines in the other
    pages), the drawer [components/LeftDrawer.tsx], the home page
    [pages/index.tsx] as an event machine [home_step] with its view, the
    mounting and views of [pages/history/index.tsx] and
    [pages/detail/index.tsx] (the search they start once the session is
    active) and the detail page's cosignature click (lines 66-91), which
    composes [cosignedEscrowWithSSS] of [Orchestrator.v] with the result
    handling of [Pages.v].

    The hook [useSssInit] is outside the sources: its state is the
    string the pages compare, and [PublicAccount.createFromPublicKey(..)
    .address.plain()] is the function [addressOf] a section takes.  A
    mount is the state once the effects have taken hold: the first
    effect's [setClientAddress] re-renders the page, and the second
    effect, which depends on [clientAddress], then runs with the new
    address; an awaited search is applied when it returns. *)
From S2P Require Import Prelude Config JsValue Ledger Builder Search Tracker Orchestrator Pages.
From Stdlib Require Import QArith.

(** ** The session *)

Record Session := mkSession {
  clientAddress : Address;      (* [useState<string>('')] *)
  route : option string         (* the last [router.push] *)
}.

Definition session_init : Session := mkSession "" None.

Inductive SssEffect :=
  | SetClientAddress (a : Address)
  | RouterPush (path : string)
  | NoSssEffect.

Section Sss.
Variable addressOf : string -> Address.

(** The first [useEffect] of every page, [pages/index.tsx] lines 39-46. *)
Definition sss_effect (clientPublicKey sssState : string) : SssEffect :=
  if sssState === "ACTIVE" then SetClientAddress (addressOf clientPublicKey)
  else if (sssState === "INACTIVE") || (sssState === "NONE") then RouterPush "/sss"
  else NoSssEffect.

Definition apply_sss (e : SssEffect) (se : Session) : Session :=
  match e with
  | SetClientAddress a => mkSession a (route se)
  | RouterPush p => mkSession (clientAddress se) (Some p)
  | NoSssEffect => se
  end.

(** The guard of the pages' second effect:
    [sssState === 'ACTIVE' && clientAddress !== '']. *)
Definition session_ready (sssState : string) (se : Session) : bool :=
  (sssState === "ACTIVE") && negb (clientAddress se === "").

(** ** The drawer, [components/LeftDrawer.tsx] *)

Record DrawerState := mkDrawer { openLeftDrawer : bool; drawer_route : option string }.

(** The three entries, lines 44-88: label and target. *)
Definition drawer_items : list (string * string) :=
  [("ホーム", "/"); ("取引要求", "/escrow"); ("取引履歴", "/history")].

(** An entry's [onClick]: [router.push(path)] then
    [setOpenLeftDrawer(false)]. *)
Definition drawer_click (path : string) (d : DrawerState) : DrawerState :=
  mkDrawer false (Some path).

(** [onClose], line 27. *)
Definition drawer_close (d : DrawerState) : DrawerState := mkDrawer false (drawer_route d).

(** ** The home page, [pages/index.tsx] *)

Record HomeItem := mkHomeItem {
  hi_status : string; hi_message : string; hi_deadline : string; hi_mosaicId : string;
  hi_amount : string; hi_price : string; hi_hash : string
}.

(** The explorer link a hash opens, line 208. *)
Definition explorer_link (hash : string) : string :=
  "https://testnet.symbol.fyi/transactions/" ++ hash.

Inductive HomeView := HomeSpinner | HomeList (items : list HomeItem).

(** Lines 98-221: the spinner while [progress], else the list titled
    'エクスクロー一覧', which holds one item written in the page. *)
Definition home_view (progress : bool) : HomeView :=
  if progress then HomeSpinner
  else HomeList [mkHomeItem "要求中" "めちゃくちゃほしいです。ぜひ交換お願いします"
                   "2021/10/10 10:10:10" "69601B95CF27C9C3" "1枚" "400xym"
                   "0FCCAED8BC13BFC62465F1501D857E8C3FE99DBBA3FA31A99EE6DDB6F2130E79"].

(** The home page's state, lines 27-50: the page state of [Pages.v]
    (progress, snackbar, [openDialogSendMessage] as [openDialog], [hash] as
    [txHash]), the drawer, the session and the dialog's texts. *)
Record HomeState := mkHome {
  home_page : PageState;
  home_drawer : DrawerState;
  home_session : Session;
  dialogTitle : string;
  dialogMessage : string
}.

Definition home_init : HomeState :=
  mkHome (mkPage false false SevError MsgNone false None "") (mkDrawer false None) session_init "" "".

(** What can happen on the home page: the hook's state changes, the
    header's menu button, the drawer's entries and [onClose], the
    snackbar's and the dialog's close, and the dialog's agree button with
    the outcome of [sendMessageWithSSS] (lines 79-97).  No event opens the
    dialog: the button that did (lines 222-232) is commented out. *)
Inductive HomeEvent :=
  | HSss (clientPublicKey sssState : string)
  | HMenu
  | HDrawerClick (path : string)
  | HDrawerClose
  | HSnackbarClose
  | HDialogClose
  | HDialogAgree (r : js_result (option TransactionStatus)).

(** [handleAgreeClickSendMessage], lines 51-76: the same handling as the
    older request page's, which records the hash of a successful status. *)
Definition home_agree (r : js_result (option TransactionStatus)) (ps : PageState) : PageState :=
  agree_outcome_with_hash r ps.

Definition set_home_page (h : HomeState) (ps : PageState) : HomeState :=
  mkHome ps (home_drawer h) (home_session h) (dialogTitle h) (dialogMessage h).

Definition set_home_drawer (h : HomeState) (d : DrawerState) : HomeState :=
  mkHome (home_page h) d (home_session h) (dialogTitle h) (dialogMessage h).

Definition home_step (h : HomeState) (ev : HomeEvent) : option HomeState :=
  match ev with
  | HSss pk st =>
      Some (mkHome (home_page h) (home_drawer h) (apply_sss (sss_effect pk st) (home_session h))
              (dialogTitle h) (dialogMessage h))
  | HMenu => Some (set_home_drawer h (mkDrawer true (drawer_route (home_drawer h))))
  | HDrawerClick p =>
      if openLeftDrawer (home_drawer h) then Some (set_home_drawer h (drawer_click p (home_drawer h)))
      else None
  | HDrawerClose =>
      if openLeftDrawer (home_drawer h) then Some (set_home_drawer h (drawer_close (home_drawer h)))
      else None
  | HSnackbarClose =>
      let ps := home_page h in
      Some (set_home_page h (mkPage (progress ps) false (snackbarSeverity ps) (snackbarMessage ps)
                               (openDialog ps) (inputData ps) (txHash ps)))
  | HDialogClose =>
      if openDialog (home_page h) then Some (set_home_page h (dialog_cancel (home_page h))) else None
  | HDialogAgree r =>
      if openDialog (home_page h)
      then Some (set_home_page h (dialog_cancel (home_agree r (home_page h))))
      else None
  end.

(** ** Mounting the history and detail pages *)

Record HistoryState := mkHistory { hprogress : bool; escrowDataList : list escrowAggregateTransaction }.

(** Lines 15 and 22: the spinner on, an empty list. *)
Definition history_init : HistoryState := mkHistory true [].

(** [pages/history/index.tsx] lines 24-44: the session effect, then,
    once active, [initalescrowDataList()] (not awaited) and
    [setProgress(false)]; the list is set when the search returns one. *)
Definition history_mount (cfg : Config) (conn : option Node) (clientPublicKey sssState : string)
    (se : Session) (hs : HistoryState) : Session * HistoryState :=
  let se := apply_sss (sss_effect clientPublicKey sssState) se in
  if session_ready sssState se
  then let '(p, l) := history_load (searchEscrow cfg conn (clientAddress se) Confirmed)
                                   (escrowDataList hs) in
       (se, mkHistory p l)
  else (se, hs).

(** [pages/detail/index.tsx] lines 39-63: the session effect, then, once
    active, the search of the pending escrows and the selection of the
    one whose hash is [router.query.hash]. *)
Definition detail_mount (cfg : Config) (conn : option Node) (clientPublicKey sssState : string)
    (escrowHash : string) (se : Session) (ds : DetailState) : Session * DetailState :=
  let se := apply_sss (sss_effect clientPublicKey sssState) se in
  if session_ready sssState se
  then (se, select_escrow escrowHash (searchEscrow cfg conn (clientAddress se) Partial) ds)
  else (se, ds).
End Sss.

(** ** What the history and detail pages show *)

(** [pages/history/index.tsx] lines 46-78: the spinner while [progress],
    else one [CardEscrowConfirmed] per record, in the list's order. *)
Definition history_view (clientAddress : Address) (hs : HistoryState) : option (list CardView) :=
  if hprogress hs then None
  else Some (map (card_confirmed_view clientAddress) (escrowDataList hs)).

Record DetailView := mkDetailView {
  dtv_mosaicId : string; dtv_amount : Z; dtv_price : Q;   (* 'あなたの … × … と …xym を交換して下さい' *)
  dtv_signerAddress : Address;                           (* 依頼アドレス *)
  dtv_message : string                                   (* メッセージ *)
}.

(** [pages/detail/index.tsx] lines 104-158: the spinner while
    [progress], else the terms of the selected record. *)
Definition detail_view (ds : DetailState) : option DetailView :=
  if dprogress ds then None
  else let e := escrowData ds in
       Some (mkDetailView (mosaicId_of e) (amount_of e) (price_of e) (signerAddress e) (message_of e)).

(** The back button, line 160: [router.push('/')]. *)
Definition detail_back (se : Session) : Session := mkSession (clientAddress se) (Some "/").

(** ** The detail page's cosignature, lines 66-91 *)

Section DetailAgree.
Context `{SignerGateway} `{Announcer} `{ConfirmationTracker}.

(** [handleAgreeClick]: [cosignedEscrowWithSSS(clientAddress,
    escrowData.hash)] and the handling of its outcome; the page's single
    [progress] is the detail state's spinner.  The effects the flow
    performs are returned with the new state. *)
Definition detail_agree (conn : option Node) (se : Session) (ds : DetailState) (ps : PageState)
    : DetailState * PageState * list Effect :=
  let '(r, tr) := cosignedEscrowWithSSS conn (clientAddress se) (hash_of (escrowData ds)) [] in
  let ps' := agree_outcome r ps in
  (mkDetail (escrowData ds) (progress ps'), ps', tr).
End DetailAgree.

(** ** Properties of the pages' sessions *)

Lemma session_ready_active (addressOf : string -> Address) pk :
  addressOf pk <> "" ->
  session_ready "ACTIVE" (apply_sss (sss_effect addressOf pk "ACTIVE") session_init) = true.
Proof.
  intros Hne. unfold session_ready, sss_effect. simpl.
  by destruct (String.eqb_spec (addressOf pk) "").
Qed.

(** The home page at rest: no dialog, no spinner, no snackbar, no hash. *)
Definition home_quiet (h : HomeState) : Prop :=
  openDialog (home_page h) = false /\ progress (home_page h) = false /\
  openSnackbar (home_page h) = false /\ txHash (home_page h) = "".

Lemma home_step_quiet addressOf h ev h' :
  home_step addressOf h ev = Some h' -> home_quiet h -> home_quiet h'.
Proof.
  intros Hs (Hd & Hp & Hn & Hh).
  destruct ev; simpl in Hs; rewrite ?Hd in Hs;
    repeat case_match; simplify_eq; unfold home_quiet; simpl; auto.
Qed.

(** C39: The home page's send-message handler is dead code: in every
    state the home page can reach, its dialog is closed, so the agree
    button that would call [sendMessageWithSSS] can never be pressed, and
    the page never shows a spinner, a snackbar or a hash. *)
Theorem home_send_message_unreachable addressOf h :
  rtc (step_rel (home_step addressOf)) home_init h ->
  (forall r, home_step addressOf h (HDialogAgree r) = None) /\
  progress (home_page h) = false /\ openSnackbar (home_page h) = false /\
  txHash (home_page h) = "".
Proof.
  intros Hr.
  assert (home_quiet h) as (Hd & Hp & Hn & Hh).
  { eapply (rtc_invariant _ home_quiet); [|exact Hr|done].
    intros x y [ev Hev]. exact (home_step_quiet _ _ _ _ Hev). }
  split; [|done]. intros r. simpl. by rewrite Hd.
Qed.

(** C35: The history page cannot tell a failed search from an empty one:
    with no reachable node ([searchEscrow] returns [undefined]), with a
    node that does not know the client (the search throws, the
    unawaited promise rejects) and with a node that has no confirmed
    escrow, the page ends in the same state, an empty history without
    spinner; the specification asks callers to tell "could not search"
    from "found nothing". *)
Theorem history_no_node_like_no_escrow cfg (addressOf : string -> Address) pk nd :
  addressOf pk <> "" ->
  searchEscrow cfg (Some nd) (addressOf pk) Confirmed = Returned (Some []) \/
  nd_accounts nd !! addressOf pk = None ->
  history_mount addressOf cfg None pk "ACTIVE" session_init history_init =
    (mkSession (addressOf pk) None, mkHistory false []) /\
  history_mount addressOf cfg (Some nd) pk "ACTIVE" session_init history_init =
    (mkSession (addressOf pk) None, mkHistory false []).
Proof.
  intros Hne Hnd. unfold history_mount. rewrite session_ready_active by done.
  cbn -[searchEscrow]. split; [done|].
  destruct Hnd as [-> | Hacc]; [done|].
  unfold searchEscrow, getAccountInfo. by rewrite Hacc.
Qed.

(** C36: Cosigning a bundle that is no longer pending (already cosigned,
    expired or never listed) ends silently: [getTransaction] on the
    partial group throws, the user is asked for no signature and nothing
    is announced, [handleAgreeClick] only logs the error and turns the
    spinner off, and the snackbar stays as it was. *)
Theorem detail_agree_not_pending `{SignerGateway} `{Announcer} `{ConfirmationTracker}
    nd se ds ps acct :
  getAccountInfo nd (clientAddress se) = Returned acct ->
  nd_transactions nd !! (Partial, hash_of (escrowData ds)) = None ->
  detail_agree (Some nd) se ds ps =
    (mkDetail (escrowData ds) false, set_progress false (set_progress true ps), []).
Proof.
  intros Hacc Htx. unfold detail_agree, cosignedEscrowWithSSS, fbind, flift, getTransaction.
  by rewrite Hacc, Htx.
Qed.

(** ** Concrete runs *)

#[local] Instance idle_signer : SignerGateway :=
  {| requestSign _ := Hangs; requestSignCosignature _ := Hangs |}.
#[local] Instance idle_announcer : Announcer := {| announce _ _ := Returned tt |}.
#[local] Instance idle_tracker : ConfirmationTracker := {| confirm _ _ _ := Hangs |}.

Definition alice_session : Session := mkSession "TALICE" None.

Lemma history_no_node_like_no_escrow_witness :
  history_mount (fun _ => "TALICE") default_config None "PK-ALICE" "ACTIVE" session_init history_init =
    (alice_session, mkHistory false []) /\
  history_mount (fun _ => "TALICE") default_config (Some orch_node) "PK-ALICE" "ACTIVE" session_init
    history_init = (alice_session, mkHistory false []).
Proof.
  apply (history_no_node_like_no_escrow default_config (fun _ => "TALICE") "PK-ALICE" orch_node).
  - discriminate.
  - left. vm_compute. reflexivity.
Defined.

Lemma detail_agree_not_pending_witness :
  detail_agree (Some orch_node) alice_session detail_init page_init =
    (mkDetail (escrowData detail_init) false, set_progress false (set_progress true page_init), []).
Proof. apply (detail_agree_not_pending orch_node alice_session detail_init page_init alice); reflexivity. Defined.

Lemma home_send_message_unreachable_witness :
  run_events (home_step (fun _ => "TALICE")) home_init
    [HSss "PK-ALICE" "ACTIVE"; HMenu; HDrawerClick "/escrow"; HSnackbarClose] =
    Some (mkHome (mkPage false false SevError MsgNone false None "") (mkDrawer false (Some "/escrow"))
            alice_session "" "") /\
  (forall r, home_step (fun _ => "TALICE")
               (mkHome (mkPage false false SevError MsgNone false None "") (mkDrawer false (Some "/escrow"))
                  alice_session "" "") (HDialogAgree r) = None).
Proof.
  assert (Hrun : run_events (home_step (fun _ => "TALICE")) home_init
    [HSss "PK-ALICE" "ACTIVE"; HMenu; HDrawerClick "/escrow"; HSnackbarClose] =
    Some (mkHome (mkPage false false SevError MsgNone false None "") (mkDrawer false (Some "/escrow"))
            alice_session "" "")) by reflexivity.
  split; [exact Hrun|].
  exact (proj1 (home_send_message_unreachable _ _ (run_events_rtc _ _ _ _ Hrun))).
Defined.
